(** * proj2_nps: national park sites, response cache and interactive session

    A shallow embedding of [proj2_nps.py] and the properties of its
    response cache, its page scrapers and its command loop.

    Conventions of the embedding.
    - A Python [str] is a [string]; every character stands for one code
      point below 256.
    - A value decoded from JSON is a [json]; a Python [dict] with string
      keys is a [gmap string _] (Python compares dicts regardless of
      insertion order, and so does [=] on [gmap]).
    - Effects are explicit: a computation is a function from the [world]
      (the module-level [CACHE_DICT], the file [cache.json], and the log
      of everything the process did) to an outcome and a new world.  An
      uncaught Python exception is the outcome [Raise].
    - The libraries the script calls ([requests], [json], the HTML parser
      of [bs4]) are parameters of the development. *)

From stdpp Require Import gmap strings list fin_maps pretty.
From Stdlib Require Import Ascii NArith Lia.

#[local] Set Warnings "-register-all,-clear-no-such-hyp".
#[local] Open Scope string_scope.
#[local] Open Scope list_scope.

(** ** Python strings *)

Module PyStr.

(** [str.lower()] on code points below 256: the upper-case letters are
    A-Z, and in the Latin-1 block U+00C0-U+00DE except U+00D7. *)
Definition is_upper (c : ascii) : bool :=
  let n := N_of_ascii c in
  ((65 <=? n) && (n <=? 90) || (192 <=? n) && (n <=? 222) && negb (n =? 215))%N.

Definition lower_char (c : ascii) : ascii :=
  if is_upper c then ascii_of_N (N_of_ascii c + 32) else c.

Fixpoint lower (s : string) : string :=
  match s with
  | EmptyString => EmptyString
  | String c rest => String (lower_char c) (lower rest)
  end.

(** [str.isspace()] on one character below 256. *)
Definition is_space (c : ascii) : bool :=
  let n := N_of_ascii c in
  ((9 <=? n) && (n <=? 13) || (28 <=? n) && (n <=? 32)
   || (n =? 133) || (n =? 160))%N.

Fixpoint lstrip (s : string) : string :=
  match s with
  | EmptyString => EmptyString
  | String c rest => if is_space c then lstrip rest else s
  end.

Fixpoint rstrip (s : string) : string :=
  match s with
  | EmptyString => EmptyString
  | String c rest =>
      match rstrip rest with
      | EmptyString => if is_space c then EmptyString else String c EmptyString
      | kept => String c kept
      end
  end.

(** [str.strip()] without argument. *)
Definition strip (s : string) : string := rstrip (lstrip s).

(** ['-' * n] *)
Fixpoint repeat_char (c : ascii) (n : nat) : string :=
  match n with
  | O => EmptyString
  | S k => String c (repeat_char c k)
  end.

(** The one-character string holding a double quote. *)
Definition dquote : string := String "034"%char EmptyString.

(** Some character of [s] is not white space. *)
Fixpoint has_ink (s : string) : bool :=
  match s with
  | EmptyString => false
  | String c rest => negb (is_space c) || has_ink rest
  end.

End PyStr.

(** ** Values decoded from JSON *)

Inductive json : Type :=
| JNull
| JBool (b : bool)
| JNum (literal : string)
| JStr (s : string)
| JList (items : list json)
| JDict (d : gmap string json).

(** The dict whose values are the strings of [m]. *)
Definition str_dict (m : gmap string string) : json := JDict (JStr <$> m).

(** ** Exceptions, outcomes, the world *)

Inductive exn : Type :=
| ConnectionError
| AttributeError
| KeyError
| TypeError
| JSONDecodeError
| FileNotFoundError
| PermissionError
| SystemExit.

Inductive outcome (A : Type) : Type :=
| Ok (a : A)
| Raise (e : exn).
Arguments Ok {A} a.
Arguments Raise {A} e.

(** The file [cache.json]: absent, or present with its permission bits. *)
Inductive file : Type :=
| NoFile
| File (readable writable : bool) (contents : string).

Inductive event : Type :=
| Printed (line : string)
| Prompted (prompt answer : string)
| HttpGet (url : string) (params : list (string * string))
| FileRead
| FileWrite (contents : string).

Record world : Type := World {
  CACHE_DICT : json;
  cache_file : file;
  trace : list event
}.

Definition M (A : Type) : Type := world → outcome A * world.

Definition ret {A} (a : A) : M A := λ w, (Ok a, w).
Definition raise {A} (e : exn) : M A := λ w, (Raise e, w).
Definition bind {A B} (m : M A) (k : A → M B) : M B := λ w,
  match m w with
  | (Ok a, w') => k a w'
  | (Raise e, w') => (Raise e, w')
  end.

(** [try: m  except: handler] with a bare [except]. *)
Definition try_except {A} (m handler : M A) : M A := λ w,
  match m w with
  | (Ok a, w') => (Ok a, w')
  | (Raise _, w') => handler w'
  end.

#[export] Instance M_ret : MRet M := @ret.
#[export] Instance M_bind : MBind M := λ A B k m, bind m k.

#[export] Instance outcome_ret : MRet outcome := @Ok.
#[export] Instance outcome_bind : MBind outcome := λ A B k o,
  match o with
  | Ok a => k a
  | Raise e => Raise e
  end.
#[export] Instance outcome_fmap : FMap outcome := λ A B f o,
  match o with
  | Ok a => Ok (f a)
  | Raise e => Raise e
  end.

Definition lift {A} (o : outcome A) : M A := λ w, (o, w).

Definition log (e : event) : M unit := λ w,
  (Ok tt, World (CACHE_DICT w) (cache_file w) (trace w ++ [e])).

Definition print (line : string) : M unit := log (Printed line).

Definition get_CACHE_DICT : M json := λ w, (Ok (CACHE_DICT w), w).
Definition set_CACHE_DICT (v : json) : M unit := λ w,
  (Ok tt, World v (cache_file w) (trace w)).

(** The events a computation adds are those after the first
    [length (trace w)] of the final trace. *)
Definition new_events (w w' : world) : list event :=
  drop (length (trace w)) (trace w').

(** ** Files *)

(** [f = open(CACHE_FILE_NAME, 'r'); f.read()] *)
Definition open_read : M string := λ w,
  match cache_file w with
  | NoFile => (Raise FileNotFoundError, w)
  | File false _ _ => (Raise PermissionError, w)
  | File true _ contents => (log FileRead ;; ret contents) w
  end.

(** [f = open(CACHE_FILE_NAME, 'w'); f.write(contents); f.close()] *)
Definition open_write (contents : string) : M unit := λ w,
  match cache_file w with
  | NoFile =>
      (Ok tt, World (CACHE_DICT w) (File true true contents)
                    (trace w ++ [FileWrite contents]))
  | File _ false _ => (Raise PermissionError, w)
  | File r true _ =>
      (Ok tt, World (CACHE_DICT w) (File r true contents)
                    (trace w ++ [FileWrite contents]))
  end.

(** ** Dynamic typing of the values the script handles *)

(** [v.keys()] *)
Definition py_keys (v : json) : outcome (gset string) :=
  match v with
  | JDict d => Ok (dom d)
  | _ => Raise AttributeError
  end.

(** [v[key]] for a string key *)
Definition py_getitem (v : json) (key : string) : outcome json :=
  match v with
  | JDict d => match d !! key with Some x => Ok x | None => Raise KeyError end
  | _ => Raise TypeError
  end.

(** [v[key] = x] *)
Definition py_setitem (v : json) (key : string) (x : json) : outcome json :=
  match v with
  | JDict d => Ok (JDict (<[key := x]> d))
  | _ => Raise TypeError
  end.

(** [for x in v] *)
Definition py_iter (v : json) : outcome (list json) :=
  match v with
  | JList items => Ok items
  | JStr s => Ok ((λ c, JStr (String c EmptyString)) <$> String.list_ascii_of_string s)
  | JDict d => Ok ((λ kv, JStr kv.1) <$> map_to_list d)
  | _ => Raise TypeError
  end.

(** [v == ''] *)
Definition py_is_empty_str (v : json) : bool :=
  match v with
  | JStr EmptyString => true
  | _ => false
  end.

(** The operand of [str + v]: a [TypeError] unless [v] is a [str]. *)
Definition py_str_operand (v : json) : outcome string :=
  match v with
  | JStr s => Ok s
  | _ => Raise TypeError
  end.

(** ** Parsed HTML, as [bs4] presents it *)

(** A text node, or a tag with its name, the tokens of its [class]
    attribute, its other attributes and its children. *)
Inductive node : Type :=
| Text (s : string)
| Element (tag : string) (classes : list string)
          (attrs : gmap string string) (children : list node).

Module Soup.

Definition children_of (n : node) : list node :=
  match n with
  | Text _ => []
  | Element _ _ _ children => children
  end.

(** All nodes below [n], in document order. *)
Fixpoint descendants (n : node) : list node :=
  match n with
  | Text _ => []
  | Element _ _ _ children =>
      flat_map (λ c, c :: descendants c) children
  end.

(** [tag.get_text()], also [tag.text] *)
Fixpoint get_text (n : node) : string :=
  match n with
  | Text s => s
  | Element _ _ _ children =>
      fold_right (λ c acc, get_text c +:+ acc) EmptyString children
  end.

Definition named (tag : string) (n : node) : bool :=
  match n with
  | Element t _ _ _ => bool_decide (t = tag)
  | Text _ => false
  end.

(** [class_=q]: some token of the class attribute is [q], or the
    tokens joined by single spaces are [q]. *)
Definition has_class (q : string) (n : node) : bool :=
  match n with
  | Element _ [] _ _ => false
  | Element _ classes _ _ =>
      bool_decide (q ∈ classes) || bool_decide (String.concat " " classes = q)
  | Text _ => false
  end.

(** [key=value] for a single-valued attribute such as [id] or [itemprop] *)
Definition has_attr (key value : string) (n : node) : bool :=
  match n with
  | Element _ _ attrs _ => bool_decide (attrs !! key = Some value)
  | Text _ => false
  end.

(** [tag.find(...)]: the first match below [tag], or [None] *)
Definition find (p : node → bool) (n : node) : option node :=
  head (filter (λ x, p x = true) (descendants n)).

(** [tag.find_all(...)] *)
Definition find_all (p : node → bool) (n : node) : list node :=
  filter (λ x, p x = true) (descendants n).

(** [tag.find_all(..., recursive=False)] *)
Definition find_all_children (p : node → bool) (n : node) : list node :=
  filter (λ x, p x = true) (children_of n).

(** Attribute access on what [find] returned: on [None] Python raises
    [AttributeError]. *)
Definition on_tag {A} (t : option node) (f : node → A) : outcome A :=
  match t with
  | Some n => Ok (f n)
  | None => Raise AttributeError
  end.

(** [tag[key]]: [TypeError] on [None], [KeyError] without the attribute *)
Definition subscript (t : option node) (key : string) : outcome string :=
  match t with
  | None => Raise TypeError
  | Some (Text _) => Raise TypeError
  | Some (Element _ _ attrs _) =>
      match attrs !! key with
      | Some v => Ok v
      | None => Raise KeyError
      end
  end.

End Soup.

(** ** Sites *)

Record NationalSite : Type := NationalSite_init {
  category : string;
  name : string;
  address : string;
  zipcode : string;
  phone : string
}.

Definition info (self : NationalSite) : string :=
  name self +:+ " (" +:+ category self +:+ "): " +:+ address self +:+ " " +:+ zipcode self.

(** Where the command loop stands: at the state prompt, at the site
    prompt with its numbered list, or ended ([exit()] or an uncaught
    exception). *)
Inductive session : Type :=
| StateSelect
| SiteList (site_dict : gmap string NationalSite)
| Exited
| Crashed (e : exn).

Section Program.

(** What the network answers to a GET, given everything that happened
    before; [None] when the server cannot be reached. *)
Variable internet : list event → string → list (string * string) → option string.

(** [json.dumps] and [json.loads]; [None] when [json.loads] raises. *)
Variable json_dumps : json → string.
Variable json_loads : string → option json.

(** [BeautifulSoup(text, 'html.parser')]: the document as one root
    node whose children are the top-level nodes of the page. *)
Variable BeautifulSoup : string → node.

(** [secrets.API_KEY] *)
Variable key : string.

(** [requests.get(url, params).text].  The one failure modelled is that
    of a server that cannot be reached: the request goes out and the
    call raises [ConnectionError].  The other failures of [requests.get]
    (a URL it refuses before anything is sent, a timeout) are not told
    apart from it; the program itself requests [state_url],
    [endpoint_url] and addresses that start with [https://www.nps.gov]. *)
Definition requests_get (url : string) (params : list (string * string)) : M string :=
  λ w,
    match internet (trace w) url params with
    | Some text => (log (HttpGet url params) ;; ret text) w
    | None => (log (HttpGet url params) ;; raise ConnectionError) w
    end.

(** *** The cache *)

Definition load_cache : M json :=
  try_except
    (cache_file_contents ← open_read;
     cache ← lift (match json_loads cache_file_contents with
                    | Some v => Ok v
                    | None => Raise JSONDecodeError
                    end);
     ret cache)
    (ret (JDict ∅)).

Definition save_cache (cache : json) : M unit :=
  let contents_to_write := json_dumps cache in
  open_write contents_to_write.

(** The parameter [cache] of the source is a reference to the dict
    object bound to [CACHE_DICT] (its one call site passes that
    object), so reading and assigning through it act on the world's
    [CACHE_DICT]. *)
Definition make_url_request_using_cache (url : string) : M json :=
  cache ← get_CACHE_DICT;
  keys ← lift (py_keys cache);
  if decide (url ∈ keys) then
    print "Using cache" ;;
    lift (py_getitem cache url)
  else
    print "Fetching" ;;
    response ← requests_get url [];
    cache' ← lift (py_setitem cache url (JStr response));
    set_CACHE_DICT cache' ;;
    save_cache cache' ;;
    lift (py_getitem cache' url).

(** *** Scraping *)

Definition state_url : string := "https://www.nps.gov".

(** The loop of [build_state_url_dict] over the [li] items. *)
Fixpoint state_dict_loop (state_list : list node) (state_dict : gmap string string)
  : outcome (gmap string string) :=
  match state_list with
  | [] => Ok state_dict
  | states :: rest =>
      let state_tag := Soup.find (Soup.named "a") states in
      state_name ← Soup.on_tag state_tag Soup.get_text;
      state_link ← Soup.subscript state_tag "href";
      let state_details := state_url +:+ state_link in
      if decide (state_name ∈ dom state_dict)
      then state_dict_loop rest state_dict
      else state_dict_loop rest (<[PyStr.lower state_name := state_details]> state_dict)
  end.

(** [build_state_url_dict] from the parsed page on. *)
Definition state_dict_of_soup (soup : node) : outcome (gmap string string) :=
  let state_parent :=
    Soup.find (λ n, Soup.named "ul" n
                    && Soup.has_class "dropdown-menu SearchBar-keywordSearch" n) soup in
  state_list ← Soup.on_tag state_parent (Soup.find_all_children (Soup.named "li"));
  state_dict_loop state_list ∅.

Definition build_state_url_dict : M (gmap string string) :=
  response ← requests_get state_url [];
  let soup := BeautifulSoup response in
  lift (state_dict_of_soup soup).

(** [tag.find(...).text] for a [tag] that [find] returned *)
Definition text_of (tag : option node) (p : node → bool) : outcome string :=
  found ← Soup.on_tag tag (Soup.find p);
  Soup.on_tag found Soup.get_text.

(** [s != None] for a [str] object [s]: it is never [None]. *)
Definition not_None (s : string) : bool := true.

Definition header_of (soup : node) : option node :=
  Soup.find (Soup.has_class "Hero-titleContainer clearfix") soup.

Definition footer_of (soup : node) : option node :=
  Soup.find (Soup.has_class "ParkFooter-contact") soup.

(** [get_site_instance] from the parsed page on. *)
Definition site_of_soup (soup : node) : outcome NationalSite :=
  let header := header_of soup in
  name ← PyStr.strip <$> text_of header (Soup.has_class "Hero-title");
  category ← PyStr.strip <$> text_of header (Soup.has_class "Hero-designation");
  let footer := footer_of soup in
  city ← PyStr.strip <$> text_of footer (Soup.has_attr "itemprop" "addressLocality");
  state ← PyStr.strip <$> text_of footer (Soup.has_attr "itemprop" "addressRegion");
  zipcode ← PyStr.strip <$> text_of footer (Soup.has_attr "itemprop" "postalCode");
  phone ← PyStr.strip <$> text_of footer (Soup.has_attr "itemprop" "telephone");
  let address := city +:+ ", " +:+ state in
  let category := if decide (category ≠ "") then category else "no category" in
  let address := if not_None city && not_None state
                 then city +:+ ", " +:+ state else "" in
  let zipcode := if not_None zipcode then zipcode else "" in
  let phone := if not_None phone then phone else "" in
  Ok (NationalSite_init category name address zipcode phone).

(** [BeautifulSoup(text, ...)] for whatever the cache returned: only a
    [str] is markup. *)
Definition soup_of (text : json) : outcome node :=
  match text with
  | JStr s => Ok (BeautifulSoup s)
  | _ => Raise TypeError
  end.

Definition get_site_instance (site_url : string) : M NationalSite :=
  text ← make_url_request_using_cache site_url;
  soup ← lift (soup_of text);
  lift (site_of_soup soup).

(** The loop of [get_sites_for_state] over the listed parks. *)
Fixpoint park_loop (park_find : list node) (park_list : list NationalSite)
  : M (list NationalSite) :=
  match park_find with
  | [] => ret park_list
  | park :: rest =>
      let baseurl := "https://www.nps.gov" in
      parameter ← lift (Soup.subscript (Soup.find (Soup.named "a") park) "href");
      let url := baseurl +:+ parameter in
      site_instance ← get_site_instance url;
      park_loop rest (park_list ++ [site_instance])
  end.

Definition get_sites_for_state (state_url : string) : M (list NationalSite) :=
  response ← requests_get state_url [];
  let text := PyStr.strip response in
  let soup := BeautifulSoup text in
  let parks := Soup.find (Soup.has_attr "id" "list_parks") soup in
  park_find ← lift (Soup.on_tag parks
    (Soup.find_all (Soup.has_class "col-md-9 col-sm-9 col-xs-12 table-cell list_left")));
  park_loop park_find [].

Definition endpoint_url : string := "http://www.mapquestapi.com/search/v2/radius".

Definition get_nearby_places (site_object : NationalSite) : M json :=
  let params := [("origin", zipcode site_object); ("radius", "10");
                 ("maxMatches", "10"); ("ambiguities", "ignore");
                 ("outFormat", "json"); ("key", key)] in
  response ← requests_get endpoint_url params;
  match json_loads response with
  | Some results => ret results
  | None => raise JSONDecodeError
  end.

(** *** The command loop *)

Definition state_prompt : string :=
  "Enter a state name(e.g. Michigan, michigan) or " +:+ PyStr.dquote +:+ "exit" +:+ PyStr.dquote +:+ ": ".

Definition site_prompt : string :=
  "Choose the number for detail search or " +:+ PyStr.dquote +:+ "exit" +:+ PyStr.dquote
    +:+ " or " +:+ PyStr.dquote +:+ "back" +:+ PyStr.dquote +:+ ": ".

(** [input(prompt)] answered by [answer] *)
Definition input (prompt answer : string) : M string :=
  log (Prompted prompt answer) ;; ret answer.

(** The loop that prints and numbers the sites of a state. *)
Fixpoint list_sites (all_states : list NationalSite) (index : nat)
         (site_dict : gmap string NationalSite) : M (gmap string NationalSite) :=
  match all_states with
  | [] => ret site_dict
  | item :: rest =>
      print ("[" +:+ pretty index +:+ "] " +:+ info item) ;;
      list_sites rest (index + 1) (<[pretty index := item]> site_dict)
  end.

(** [place['fields'][field]] *)
Definition place_field (place : json) (field : string) : outcome json :=
  fields ← py_getitem place "fields";
  py_getitem fields field.

(** One nearby place: the body of the [for place in ...] loop.  The
    [print] stands in the [else] branch of the test on the city. *)
Definition render_place (place : json) : M unit :=
  name ← lift (py_getitem place "name");
  sic ← lift (place_field place "group_sic_code_name");
  let category := if py_is_empty_str sic then JStr "no category" else sic in
  street ← lift (place_field place "address");
  let address := if py_is_empty_str street then JStr "no address" else street in
  town ← lift (place_field place "city");
  if py_is_empty_str town then
    let city := JStr "no city" in
    ret tt
  else
    let city := town in
    line ← lift (name' ← py_str_operand name;
                 category' ← py_str_operand category;
                 address' ← py_str_operand address;
                 city' ← py_str_operand city;
                 Ok ("- " +:+ name' +:+ " (" +:+ category' +:+ "): "
                         +:+ address' +:+ ", " +:+ city'));
    print line.

Fixpoint render_places (places : list json) : M unit :=
  match places with
  | [] => ret tt
  | place :: rest => render_place place ;; render_places rest
  end.

(** One turn of the outer [while]: from the state prompt. *)
Definition outer_iteration (answer : string) : M session :=
  state_input ← input state_prompt answer;
  if decide (PyStr.lower state_input = "exit") then
    raise SystemExit
  else
    states_url ← build_state_url_dict;
    match states_url !! PyStr.lower state_input with
    | Some url =>
        all_states ← get_sites_for_state url;
        let count := String.length (PyStr.lower state_input) in
        print (PyStr.repeat_char "-" (26 + count)) ;;
        print ("List of national sites in " +:+ PyStr.lower state_input) ;;
        print (PyStr.repeat_char "-" (26 + count)) ;;
        site_dict ← list_sites all_states 1 ∅;
        ret (SiteList site_dict)
    | None =>
        print "[Error] Enter proper state name" ;;
        ret StateSelect
    end.

(** One turn of the inner [while]: from the site prompt. *)
Definition inner_iteration (site_dict : gmap string NationalSite) (answer : string)
  : M session :=
  print "" ;;
  number_input ← input site_prompt answer;
  let number_input := PyStr.lower number_input in
  if decide (number_input = "back") then
    ret StateSelect
  else if decide (number_input = "exit") then
    raise SystemExit
  else
    match site_dict !! number_input with
    | Some site =>
        nearby_places ← get_nearby_places site;
        let count := String.length (name site) in
        print (PyStr.repeat_char "-" (12 + count)) ;;
        print ("Places near " +:+ name site) ;;
        print (PyStr.repeat_char "-" (12 + count)) ;;
        results ← lift (py_getitem nearby_places "searchResults");
        places ← lift (py_iter results);
        render_places places ;;
        ret (SiteList site_dict)
    | None =>
        print "[Error] Invalid input" ;;
        ret (SiteList site_dict)
    end.

(** Where a turn leaves the session; [exit()] raises [SystemExit]. *)
Definition settle (r : outcome session * world) : session * world :=
  match r with
  | (Ok s, w) => (s, w)
  | (Raise SystemExit, w) => (Exited, w)
  | (Raise e, w) => (Crashed e, w)
  end.

(** The session reads one line and runs one turn of the loop it is in. *)
Definition step (s : session) (line : string) (w : world) : session * world :=
  match s with
  | StateSelect => settle (outer_iteration line w)
  | SiteList site_dict => settle (inner_iteration site_dict line w)
  | Exited => (Exited, w)
  | Crashed e => (Crashed e, w)
  end.

Fixpoint run (s : session) (lines : list string) (w : world) : session * world :=
  match lines with
  | [] => (s, w)
  | line :: rest => let '(s', w') := step s line w in run s' rest w'
  end.

(** The [__main__] block on the lines typed by the user. *)
Definition main (lines : list string) (w : world) : session * world :=
  match (cache ← load_cache; set_CACHE_DICT cache) w with
  | (Ok _, w') => run StateSelect lines w'
  | (Raise e, w') => (Crashed e, w')
  end.

End Program.

(** ** A reference JSON codec

    The text [json.dumps] writes (default separators, [ensure_ascii])
    and a reader for the documents the script itself writes: one object
    whose values are strings.  It instantiates the codec parameters where
    a concrete one is needed. *)

Module RefJson.

Definition hex_digit (n : N) : ascii :=
  if (n <? 10)%N then ascii_of_N (48 + n) else ascii_of_N (87 + n).

(** One character inside a string literal: the quote, the backslash
    and everything outside [' '..'~'] are escaped. *)
Definition escape_char (c : ascii) : string :=
  let n := N_of_ascii c in
  if (n =? 34)%N then "\" +:+ PyStr.dquote
  else if (n =? 92)%N then "\\"
  else if (n =? 10)%N then "\n"
  else if (n =? 13)%N then "\r"
  else if (n =? 9)%N then "\t"
  else if (n =? 8)%N then "\b"
  else if (n =? 12)%N then "\f"
  else if (n <? 32)%N || (126 <? n)%N then
    "\u00" +:+ String (hex_digit (n / 16)) (String (hex_digit (n mod 16)) EmptyString)
  else String c EmptyString.

Fixpoint escape (s : string) : string :=
  match s with
  | EmptyString => EmptyString
  | String c rest => escape_char c +:+ escape rest
  end.

Definition quote (s : string) : string :=
  PyStr.dquote +:+ escape s +:+ PyStr.dquote.

Definition join (sep : string) (parts : list string) : string :=
  String.concat sep parts.

Fixpoint dumps (v : json) : string :=
  match v with
  | JNull => "null"
  | JBool true => "true"
  | JBool false => "false"
  | JNum literal => literal
  | JStr s => quote s
  | JList items => "[" +:+ join ", " (List.map dumps items) +:+ "]"
  | JDict d =>
      "{" +:+ join ", " (map_fold (λ k x acc, (quote k +:+ ": " +:+ dumps x) :: acc) [] d)
          +:+ "}"
  end.

Definition hex_value (c : ascii) : option N :=
  let n := N_of_ascii c in
  if (48 <=? n)%N && (n <=? 57)%N then Some (n - 48)%N
  else if (97 <=? n)%N && (n <=? 102)%N then Some (n - 87)%N
  else if (65 <=? n)%N && (n <=? 70)%N then Some (n - 55)%N
  else None.

(** The character a one-letter escape stands for. *)
Definition unescape (e : ascii) : option ascii :=
  let n := N_of_ascii e in
  if (n =? 34)%N then Some e
  else if (n =? 92)%N then Some e
  else if (n =? 47)%N then Some e
  else if (n =? 110)%N then Some (ascii_of_N 10)
  else if (n =? 114)%N then Some (ascii_of_N 13)
  else if (n =? 116)%N then Some (ascii_of_N 9)
  else if (n =? 98)%N then Some (ascii_of_N 8)
  else if (n =? 102)%N then Some (ascii_of_N 12)
  else None.

(** The rest of a string literal after its opening quote: the
    characters it denotes and the text after its closing quote. *)
Fixpoint read_chars (s : string) : option (string * string) :=
  match s with
  | EmptyString => None
  | String c rest =>
      let n := N_of_ascii c in
      if (n =? 34)%N then Some (EmptyString, rest)
      else if (n =? 92)%N then
        match rest with
        | String "u" (String h1 (String h2 (String h3 (String h4 rest')))) =>
            a ← hex_value h1; b ← hex_value h2;
            x ← hex_value h3; y ← hex_value h4;
            if ((a =? 0) && (b =? 0))%N then
              r ← read_chars rest';
              Some (String (ascii_of_N (16 * x + y)) r.1, r.2)
            else None
        | String e rest' =>
            c' ← unescape e;
            r ← read_chars rest';
            Some (String c' r.1, r.2)
        | EmptyString => None
        end
      else if (n <? 32)%N then None
      else
        r ← read_chars rest;
        Some (String c r.1, r.2)
  end.

Definition is_ws (c : ascii) : bool :=
  let n := N_of_ascii c in
  ((n =? 32) || (n =? 9) || (n =? 10) || (n =? 13))%N.

Fixpoint skip_ws (s : string) : string :=
  match s with
  | String c rest => if is_ws c then skip_ws rest else s
  | EmptyString => EmptyString
  end.

(** A string literal at the head of [s], after white space. *)
Definition read_string (s : string) : option (string * string) :=
  match skip_ws s with
  | String c rest => if (N_of_ascii c =? 34)%N then read_chars rest else None
  | EmptyString => None
  end.

(** The character [c] at the head of [s], after white space. *)
Definition expect (c : ascii) (s : string) : option string :=
  match skip_ws s with
  | String c' rest => if decide (c' = c) then Some rest else None
  | EmptyString => None
  end.

(** The members of an object after the first, up to the closing brace;
    a later member replaces an earlier one of the same name. *)
Fixpoint read_members (fuel : nat) (s : string) (acc : gmap string json)
  : option (gmap string json * string) :=
  match fuel with
  | O => None
  | S fuel' =>
      '(k, s1) ← read_string s;
      s2 ← expect ":" s1;
      '(x, s3) ← read_string s2;
      let acc' := <[k := JStr x]> acc in
      match skip_ws s3 with
      | String c rest =>
          if decide (c = ","%char) then read_members fuel' rest acc'
          else if decide (c = "}"%char) then Some (acc', rest)
          else None
      | EmptyString => None
      end
  end.

(** The members of an object after its opening brace. *)
Definition read_body (s : string) : option (gmap string json * string) :=
  match skip_ws s with
  | String "}" rest => Some (∅, rest)
  | _ => read_members (String.length s) s ∅
  end.

(** One member of an object of strings, as [dumps] writes it. *)
Definition member_text (kv : string * string) : string :=
  quote kv.1 +:+ ": " +:+ quote kv.2.

(** The member [kv] read into the dict [acc]. *)
Definition put (acc : gmap string json) (kv : string * string) : gmap string json :=
  <[kv.1 := JStr kv.2]> acc.

Definition loads (s : string) : option json :=
  s1 ← expect "{" s;
  '(d, rest) ← read_body s1;
  match skip_ws rest with
  | EmptyString => Some (JDict d)
  | _ => None
  end.

End RefJson.

(** ** Vocabulary of the statements *)

(** [open(CACHE_FILE_NAME, 'w')] succeeds. *)
Definition writable (f : file) : bool :=
  match f with
  | NoFile => true
  | File _ wr _ => wr
  end.

(** The file can be written and read back. *)
Definition accessible (f : file) : bool :=
  match f with
  | NoFile => true
  | File r wr _ => r && wr
  end.

Definition contents_of (f : file) : option string :=
  match f with
  | NoFile => None
  | File _ _ contents => Some contents
  end.

(** The URLs requested from the network, and the texts written to the
    cache file, in a list of events. *)
Definition gets (evs : list event) : list string :=
  omap (λ e, match e with HttpGet url _ => Some url | _ => None end) evs.

Definition writes (evs : list event) : list string :=
  omap (λ e, match e with FileWrite contents => Some contents | _ => None end) evs.

(** [later w w']: the process went from [w] to [w'] by cache-backed
    fetches and by any other output, prompt or request. *)
Inductive later (internet : list event → string → list (string * string) → option string)
          (json_dumps : json → string) : world → world → Prop :=
| later_now w : later internet json_dumps w w
| later_fetch w url o w' w'' :
    make_url_request_using_cache internet json_dumps url w = (o, w') →
    later internet json_dumps w' w'' →
    later internet json_dumps w w''
| later_event w e w'' :
    later internet json_dumps (log e w).2 w'' →
    later internet json_dumps w w''.

(** ** A sample environment *)

(** A network that serves one page, the stub of the specification's
    example. *)
Definition stub_web : list event → string → list (string * string) → option string :=
  λ _ url _, if decide (url = "https://x/a") then Some "BODY" else None.

(** A parser for which every page is empty. *)
Definition blank_parser : string → node := λ _, Element "[document]" [] ∅ [].

(** A process that has just started, without a cache file. *)
Definition fresh_world : world := World (JDict ∅) NoFile [].

(** The same process after it fetched the stub page. *)
Definition world_after_fetch : world :=
  World (JDict {[ "https://x/a" := JStr "BODY" ]})
        (File true true (RefJson.dumps (JDict {[ "https://x/a" := JStr "BODY" ]})))
        [Printed "Fetching"; HttpGet "https://x/a" [];
         FileWrite (RefJson.dumps (JDict {[ "https://x/a" := JStr "BODY" ]}))].

(** A world whose cache file holds [contents]. *)
Definition world_with_file (readable : bool) (contents : string) : world :=
  World (JDict ∅) (File readable true contents) [].

(** The session after an answer that is no choice of the (empty) list. *)
Definition world_after_bad_choice : world :=
  World (JDict ∅) NoFile
        [Printed ""; Prompted site_prompt "7"; Printed "[Error] Invalid input"].

(** ** Sample documents *)

Definition itemprop (value text : string) : node :=
  Element "span" [] {["itemprop" := value]} [Text text].

(** A site page with the title block and the contact block. *)
Definition site_page (title designation city state zip tel : string) : node :=
  Element "[document]" [] ∅
    [ Element "div" ["Hero-titleContainer"; "clearfix"] ∅
        [ Element "h1" ["Hero-title"] ∅ [Text title];
          Element "span" ["Hero-designation"] ∅ [Text designation] ];
      Element "div" ["ParkFooter-contact"] ∅
        [ itemprop "addressLocality" city;
          itemprop "addressRegion" state;
          itemprop "postalCode" zip;
          itemprop "telephone" tel ] ].

Definition isle_royale : node :=
  site_page "Isle Royale" "" "Houghton" "MI" "49931" "(906) 482-0984".

Definition isle_royale_site : NationalSite :=
  NationalSite_init "no category" "Isle Royale" "Houghton, MI" "49931" "(906) 482-0984".

Definition page_without_city : node :=
  site_page "Isle Royale" "National Park" "" "MI" "49931" "(906) 482-0984".

Definition page_without_title : node :=
  site_page "" "National Park" "Houghton" "MI" "49931" "(906) 482-0984".

(** One item of the state menu. *)
Definition state_item (state href : string) : node :=
  Element "li" [] ∅ [Element "a" [] {["href" := href]} [Text state]].

Definition state_menu (items : list node) : node :=
  Element "[document]" [] ∅
    [Element "ul" ["dropdown-menu"; "SearchBar-keywordSearch"] ∅ items].

Definition menu_michigan_twice : node :=
  state_menu [state_item "Michigan" "/state/mi/index.htm";
              state_item "Michigan" "/state/mi/second.htm"].

Definition menu_lowercase_twice : node :=
  state_menu [state_item "michigan" "/state/mi/index.htm";
              state_item "michigan" "/state/mi/second.htm"].

(** One element of [searchResults]. *)
Definition place (title sic street town : string) : json :=
  JDict {[ "name" := JStr title;
           "fields" := JDict {[ "group_sic_code_name" := JStr sic;
                                "address" := JStr street;
                                "city" := JStr town ]} ]}.

(** The entry the specification asks for: every empty field replaced. *)
Definition place_entry (title sic street town : string) : string :=
  "- " +:+ title
    +:+ " (" +:+ (if decide (sic = "") then "no category" else sic)
    +:+ "): " +:+ (if decide (street = "") then "no address" else street)
    +:+ ", " +:+ (if decide (town = "") then "no city" else town).

(** The URLs the cache holds. *)
Definition cached_urls (w : world) : gset string :=
  match CACHE_DICT w with
  | JDict d => dom d
  | _ => ∅
  end.

(** A run of events goes through the cache when no request asks for a
    URL that the cache holds already, counting the URLs requested
    earlier in the run as held. *)
Fixpoint cache_mediated (cached : gset string) (evs : list event) : Prop :=
  match evs with
  | [] => True
  | HttpGet url _ :: rest => (url ∉ cached) ∧ cache_mediated ({[url]} ∪ cached) rest
  | _ :: rest => cache_mediated cached rest
  end.

(** A computation goes through the cache, in a way that composes: its
    events are cache-mediated, and when it returns the cache holds what
    it held plus the URLs requested. *)
Definition through_cache {A} (m : M A) : Prop :=
  ∀ w, ∃ evs,
    trace (m w).2 = trace w ++ evs
    ∧ cache_mediated (cached_urls w) evs
    ∧ (∀ a, (m w).1 = Ok a →
         cached_urls (m w).2 = list_to_set (gets evs) ∪ cached_urls w).

(** The parameters of [get_nearby_places]. *)
Definition places_params (key : string) (site_object : NationalSite)
  : list (string * string) :=
  [("origin", zipcode site_object); ("radius", "10"); ("maxMatches", "10");
   ("ambiguities", "ignore"); ("outFormat", "json"); ("key", key)].

(** The specification's reading: every fetch of the program goes
    through the cache. *)
Definition specified_all_fetches_cached
    (internet : list event → string → list (string * string) → option string)
    (json_dumps : json → string) (json_loads : string → option json)
    (BeautifulSoup : string → node) (key : string) : Prop :=
  ∀ w,
    cache_mediated (cached_urls w)
      (new_events w (build_state_url_dict internet BeautifulSoup w).2)
    ∧ (∀ url, cache_mediated (cached_urls w)
         (new_events w (get_sites_for_state internet json_dumps BeautifulSoup url w).2))
    ∧ (∀ site, cache_mediated (cached_urls w)
         (new_events w (get_nearby_places internet json_loads key site w).2))
    ∧ (∀ url, cache_mediated (cached_urls w)
         (new_events w (get_site_instance internet json_dumps BeautifulSoup url w).2)).

(** A world whose cache holds the home page already. *)
Definition world_with_home_page : world :=
  World (JDict {[ "https://www.nps.gov" := JStr "<html></html>" ]}) NoFile [].

(** The defaulting law of the specification: the category is never
    empty, and an empty city or state text gives an empty address. *)
Definition specified_site_defaults : Prop :=
  ∀ soup site designation city state,
    site_of_soup soup = Ok site →
    PyStr.strip <$> text_of (header_of soup) (Soup.has_class "Hero-designation")
      = Ok designation →
    PyStr.strip <$> text_of (footer_of soup) (Soup.has_attr "itemprop" "addressLocality")
      = Ok city →
    PyStr.strip <$> text_of (footer_of soup) (Soup.has_attr "itemprop" "addressRegion")
      = Ok state →
    category site = (if decide (designation = "") then "no category" else designation)
    ∧ category site ≠ ""
    ∧ (city ≠ "" ∧ state ≠ "" → address site = city +:+ ", " +:+ state)
    ∧ (city = "" ∨ state = "" → address site = "").

(** The name invariant of the specification. *)
Definition specified_name_invariant : Prop :=
  (∀ c n a z p, name (NationalSite_init c n a z p) ≠ "")
  ∧ (∀ soup site, site_of_soup soup = Ok site → name site ≠ "").

(** ** Further vocabulary *)

(** The cache file holds what [json.dumps] writes for [CACHE_DICT]. *)
Definition in_sync (json_dumps : json → string) (w : world) : Prop :=
  contents_of (cache_file w) = Some (json_dumps (CACHE_DICT w)).

(** A process whose cache file exists and cannot be written. *)
Definition world_read_only : world := World (JDict ∅) (File true false "{}") [].

(** A process whose [CACHE_DICT] is a list, as [load_cache] returns it
    for a cache file that holds a JSON array. *)
Definition world_with_list : world := World (JList []) NoFile [].

(** Some character of [s] is an upper-case letter. *)
Fixpoint has_upper (s : string) : bool :=
  match s with
  | EmptyString => false
  | String c rest => PyStr.is_upper c || has_upper rest
  end.

(** The text and the [href] of the link of one menu item, as the loop of
    [build_state_url_dict] reads them. *)
Definition item_link (states : node) : outcome (string * string) :=
  let state_tag := Soup.find (Soup.named "a") states in
  state_name ← Soup.on_tag state_tag Soup.get_text;
  state_link ← Soup.subscript state_tag "href";
  Ok (state_name, state_link).

Fixpoint links_of (state_list : list node) : outcome (list (string * string)) :=
  match state_list with
  | [] => Ok []
  | states :: rest =>
      link ← item_link states;
      links ← links_of rest;
      Ok (link :: links)
  end.

(** The links of the state menu of a page, in page order. *)
Definition menu_links (soup : node) : outcome (list (string * string)) :=
  let state_parent :=
    Soup.find (λ n, Soup.named "ul" n
                    && Soup.has_class "dropdown-menu SearchBar-keywordSearch" n) soup in
  state_list ← Soup.on_tag state_parent (Soup.find_all_children (Soup.named "li"));
  links_of state_list.

(** The entry a link stands for: lower-cased name, absolute URL. *)
Definition state_entry (link : string * string) : string * string :=
  (PyStr.lower link.1, state_url +:+ link.2).

(** One turn of the loop of [build_state_url_dict] on a link. *)
Definition add_state (state_dict : gmap string string) (link : string * string)
  : gmap string string :=
  if decide (link.1 ∈ dom state_dict) then state_dict
  else <[(state_entry link).1 := (state_entry link).2]> state_dict.

(** The six texts [get_site_instance] reads from a page: title and
    designation in the title block, then city, state, postal code and
    telephone in the contact block. *)
Definition site_texts (soup : node) : list (outcome string) :=
  [ text_of (header_of soup) (Soup.has_class "Hero-title");
    text_of (header_of soup) (Soup.has_class "Hero-designation");
    text_of (footer_of soup) (Soup.has_attr "itemprop" "addressLocality");
    text_of (footer_of soup) (Soup.has_attr "itemprop" "addressRegion");
    text_of (footer_of soup) (Soup.has_attr "itemprop" "postalCode");
    text_of (footer_of soup) (Soup.has_attr "itemprop" "telephone") ].

Definition found {A} (o : outcome A) : Prop := ∃ a, o = Ok a.

(** A site page that lacks its contact block. *)
Definition page_without_footer : node :=
  Element "[document]" [] ∅
    [ Element "div" ["Hero-titleContainer"; "clearfix"] ∅
        [ Element "h1" ["Hero-title"] ∅ [Text "Isle Royale"];
          Element "span" ["Hero-designation"] ∅ [Text "National Park"] ] ].

(** The entries of the parks list of a state page, as
    [get_sites_for_state] finds them. *)
Definition listed_parks (soup : node) : outcome (list node) :=
  let parks := Soup.find (Soup.has_attr "id" "list_parks") soup in
  Soup.on_tag parks
    (Soup.find_all (Soup.has_class "col-md-9 col-sm-9 col-xs-12 table-cell list_left")).

(** [site] is what the page cached for the link of [park] parses to. *)
Definition site_cached (BeautifulSoup : string → node) (cache : json)
           (park : node) (site : NationalSite) : Prop :=
  ∃ parameter text,
    Soup.subscript (Soup.find (Soup.named "a") park) "href" = Ok parameter
    ∧ py_getitem cache ("https://www.nps.gov" +:+ parameter) = Ok (JStr text)
    ∧ site_of_soup (BeautifulSoup text) = Ok site.

(** A nearby place all of whose fields are strings. *)
Record PlaceFact : Type := {
  place_name : string;
  place_sic : string;
  place_street : string;
  place_town : string
}.

Definition place_of (p : PlaceFact) : json :=
  place (place_name p) (place_sic p) (place_street p) (place_town p).

(** The lines the session prints for a list of places: one for each
    place whose city is not empty. *)
Definition printed_places (l : list PlaceFact) : list event :=
  (λ p, Printed (place_entry (place_name p) (place_sic p) (place_street p) (place_town p)))
    <$> filter (λ p, place_town p ≠ "") l.

(** The numbered list the session keeps, and the lines it prints for it. *)
Fixpoint numbered (all_states : list NationalSite) (index : nat)
         (site_dict : gmap string NationalSite) : gmap string NationalSite :=
  match all_states with
  | [] => site_dict
  | item :: rest => numbered rest (index + 1) (<[pretty index := item]> site_dict)
  end.

Fixpoint listing (all_states : list NationalSite) (index : nat) : list event :=
  match all_states with
  | [] => []
  | item :: rest =>
      Printed ("[" +:+ pretty index +:+ "] " +:+ info item) :: listing rest (index + 1)
  end.

(** The heading the session prints above a list. *)
Definition heading (width : nat) (title : string) : list event :=
  [Printed (PyStr.repeat_char "-" width); Printed title;
   Printed (PyStr.repeat_char "-" width)].

(** A computation that never removes or changes an entry of the cache. *)
Definition keeps_entries {A} (m : M A) : Prop :=
  ∀ w d, CACHE_DICT w = JDict d →
    ∃ d', CACHE_DICT (m w).2 = JDict d' ∧ d ⊆ d'.

(** A computation that leaves the cache and its file alone and asks the
    network nothing: it only prints. *)
Definition only_prints {A} (m : M A) : Prop :=
  ∀ w, ∃ evs,
    trace (m w).2 = trace w ++ evs
    ∧ gets evs = [] ∧ writes evs = []
    ∧ CACHE_DICT (m w).2 = CACHE_DICT w
    ∧ cache_file (m w).2 = cache_file w.

(** *** A small web for the samples *)

(** The listing page of Michigan, with one park. *)
Definition michigan_page : node :=
  Element "[document]" [] ∅
    [ Element "ul" [] {[ "id" := "list_parks" ]}
        [ Element "div" ["col-md-9"; "col-sm-9"; "col-xs-12"; "table-cell"; "list_left"] ∅
            [ Element "h3" [] ∅
                [ Element "a" [] {[ "href" := "/isro/index.htm" ]} [Text "Isle Royale"] ] ] ] ].

Definition michigan_menu : node :=
  state_menu [state_item "Michigan" "/state/mi/index.htm"].

(** Pages are named by their text. *)
Definition sample_parser : string → node :=
  λ text,
    if decide (text = "INDEX") then michigan_menu
    else if decide (text = "LISTING") then michigan_page
    else if decide (text = "ISRO") then isle_royale
    else Element "[document]" [] ∅ [].

Definition sample_web : list event → string → list (string * string) → option string :=
  λ _ url _,
    if decide (url = "https://www.nps.gov") then Some "INDEX"
    else if decide (url = "https://www.nps.gov/state/mi/index.htm") then Some "LISTING"
    else if decide (url = "https://www.nps.gov/isro/index.htm") then Some "ISRO"
    else if decide (url = endpoint_url) then Some "PLACES"
    else None.

Definition houghton_places : list PlaceFact :=
  [ {| place_name := "Keweenaw Coffee"; place_sic := "";
       place_street := "326 Shelden Ave"; place_town := "" |};
    {| place_name := "Portage Library"; place_sic := "Libraries";
       place_street := ""; place_town := "Houghton" |} ].

(** The places answer decodes to two places; any other text is read by
    the reference codec. *)
Definition sample_loads : string → option json :=
  λ text,
    if decide (text = "PLACES")
    then Some (JDict {[ "searchResults" := JList (place_of <$> houghton_places) ]})
    else RefJson.loads text.

(** The session at the site prompt of Michigan. *)
Definition michigan_sites : gmap string NationalSite := {[ "1" := isle_royale_site ]}.

Definition michigan_url : string := "https://www.nps.gov/state/mi/index.htm".
Definition isle_royale_url : string := "https://www.nps.gov/isro/index.htm".

(** The process after it listed the sites of Michigan, and after it made
    the site of Isle Royale, from a fresh start. *)
Definition world_after_listing : world :=
  (get_sites_for_state sample_web RefJson.dumps sample_parser michigan_url fresh_world).2.

Definition world_after_site : world :=
  (get_site_instance sample_web RefJson.dumps sample_parser isle_royale_url fresh_world).2.

(** A computation that leaves the cache and its file alone and asks the
    network for nothing but, at most once, [url]. *)
Definition asks_only {A} (url : string) (m : M A) : Prop :=
  ∀ w, ∃ evs,
    trace (m w).2 = trace w ++ evs
    ∧ (gets evs = [] ∨ gets evs = [url]) ∧ writes evs = []
    ∧ CACHE_DICT (m w).2 = CACHE_DICT w
    ∧ cache_file (m w).2 = cache_file w.

(** A network that answers every request with an empty JSON object. *)
Definition error_web : list event → string → list (string * string) → option string :=
  λ _ _ _, Some "{}".

(** ** Properties of the cache *)

Ltac unfold_monad :=
  cbv [mbind M_bind bind mret M_ret ret lift raise log print
       get_CACHE_DICT set_CACHE_DICT try_except outcome_bind outcome_ret] in *.

Lemma new_events_app (w w' : world) (evs : list event) :
  trace w' = trace w ++ evs → new_events w w' = evs.
Proof.
  intros E. unfold new_events. rewrite E. by rewrite drop_app_length.
Qed.

Lemma new_events_same (w w' : world) :
  trace w' = trace w → new_events w w' = [].
Proof.
  intros E. apply new_events_app. by rewrite app_nil_r.
Qed.

Section CacheFacts.

Variable internet : list event → string → list (string * string) → option string.
Variable json_dumps : json → string.
Variable json_loads : string → option json.

Local Abbreviation fetch := (make_url_request_using_cache internet json_dumps).
Local Abbreviation load := (load_cache json_loads).
Local Abbreviation save := (save_cache json_dumps).

(** A hit: the stored value comes back, after one line of output. *)
Lemma fetch_hit (url : string) (d : gmap string json) (body : json) (w : world) :
  CACHE_DICT w = JDict d →
  d !! url = Some body →
  fetch url w =
    (Ok body, World (CACHE_DICT w) (cache_file w) (trace w ++ [Printed "Using cache"])).
Proof.
  intros Hc Hd. destruct w as [c f t]. cbn in *. subst c.
  unfold make_url_request_using_cache. unfold_monad. cbn.
  rewrite decide_True by (apply elem_of_dom; by exists body).
  by rewrite Hd.
Qed.

(** A miss answered by the network, the file being writable. *)
Lemma fetch_miss (url text : string) (d : gmap string json) (w : world) :
  CACHE_DICT w = JDict d →
  d !! url = None →
  internet (trace w ++ [Printed "Fetching"]) url [] = Some text →
  writable (cache_file w) = true →
  ∃ r,
    fetch url w =
      (Ok (JStr text),
       World (JDict (<[url := JStr text]> d))
             (File r true (json_dumps (JDict (<[url := JStr text]> d))))
             (trace w ++ [Printed "Fetching"; HttpGet url [];
                          FileWrite (json_dumps (JDict (<[url := JStr text]> d)))])).
Proof.
  intros Hc Hd Hnet Hw. destruct w as [c f t]. cbn in *. subst c.
  unfold make_url_request_using_cache, requests_get, save_cache, open_write.
  unfold_monad. cbn.
  rewrite decide_False by (rewrite elem_of_dom, Hd; by intros [? ?]).
  cbn. rewrite Hnet. cbn.
  destruct f as [|r wr contents]; cbn in *.
  - exists true. rewrite lookup_insert_eq. by rewrite <- !app_assoc.
  - subst wr. exists r. rewrite lookup_insert_eq. by rewrite <- !app_assoc.
Qed.

(** Whatever a fetch does, the entries of the cache stay. *)
Lemma fetch_keeps_entries (url : string) (d : gmap string json) (w w' : world)
      (o : outcome json) :
  CACHE_DICT w = JDict d →
  fetch url w = (o, w') →
  ∃ d', CACHE_DICT w' = JDict d' ∧ d ⊆ d'.
Proof.
  intros Hc. destruct w as [c f t]. cbn in *. subst c.
  unfold make_url_request_using_cache, requests_get, save_cache, open_write.
  unfold_monad. cbn.
  destruct (decide (url ∈ dom d)) as [Hin|Hout]; cbn.
  - intros [= <- <-]. by exists d.
  - assert (d !! url = None) as Hd by (by apply not_elem_of_dom).
    destruct (internet _ url []) as [text|]; cbn.
    + destruct f as [|r [] contents]; cbn; rewrite ?lookup_insert_eq;
        intros [= <- <-]; cbn; eexists; split; try done;
        by apply insert_subseteq.
    + intros [= <- <-]. by exists d.
Qed.

Lemma later_keeps_entries (d : gmap string json) (w w' : world) :
  later internet json_dumps w w' →
  CACHE_DICT w = JDict d →
  ∃ d', CACHE_DICT w' = JDict d' ∧ d ⊆ d'.
Proof.
  intros Hl. revert d. induction Hl as [w|w url o w' w'' Hf _ IH|w e w'' _ IH]; intros d Hc.
  - by exists d.
  - destruct (fetch_keeps_entries url d w w' o Hc Hf) as (d1 & Hc1 & Hsub).
    destruct (IH d1 Hc1) as (d2 & Hc2 & Hsub2).
    exists d2. split; [done|]. by transitivity d1.
  - apply IH. by destruct w.
Qed.

(** C1. Fetch memoization.  With the cache a dict: a cached URL is
    answered with the stored body and no request goes out.  A URL that
    is not cached, when the network answers and the cache file can be
    written, costs exactly one GET; the body is stored under the URL,
    the whole dict is written to the file, and the body is returned.
    From then on, whatever the process fetches or prints in between,
    fetching the same URL returns that same body without a request. *)
Theorem fetch_memoizes (url : string) (d : gmap string json) (w : world) :
  CACHE_DICT w = JDict d →
  (∀ body, d !! url = Some body →
     ∃ w', fetch url w = (Ok body, w') ∧ gets (new_events w w') = [])
  ∧ (∀ text,
       d !! url = None →
       internet (trace w ++ [Printed "Fetching"]) url [] = Some text →
       writable (cache_file w) = true →
       ∃ w',
         fetch url w = (Ok (JStr text), w')
         ∧ gets (new_events w w') = [url]
         ∧ CACHE_DICT w' = JDict (<[url := JStr text]> d)
         ∧ contents_of (cache_file w') = Some (json_dumps (CACHE_DICT w'))
         ∧ writes (new_events w w') = [json_dumps (CACHE_DICT w')]
         ∧ ∀ w'', later internet json_dumps w' w'' →
             ∃ w3, fetch url w'' = (Ok (JStr text), w3)
                   ∧ gets (new_events w'' w3) = []).
Proof.
  intros Hc. split.
  - intros body Hd. eexists. split; [by apply fetch_hit with d|].
    by erewrite new_events_app by reflexivity.
  - intros text Hd Hnet Hw.
    destruct (fetch_miss url text d w Hc Hd Hnet Hw) as [r Hf].
    eexists. split; [exact Hf|]. cbn.
    erewrite new_events_app by reflexivity. cbn.
    repeat split; try done.
    intros w'' Hl.
    destruct (later_keeps_entries _ _ _ Hl eq_refl) as (d' & Hc' & Hsub).
    assert (d' !! url = Some (JStr text)) as Hd'.
    { eapply lookup_weaken; [|exact Hsub]. apply lookup_insert_eq. }
    eexists. split; [by apply fetch_hit with d'|].
    by erewrite new_events_app by reflexivity.
Qed.

(** C10. Frame of a cache hit.  Fetching a URL that is a key of the
    cache leaves [CACHE_DICT] and the cache file as they were, and
    neither writes the file nor asks the network; a fetch that writes
    the file was a miss. *)
Theorem fetch_hit_frame (url : string) (d : gmap string json) (w : world) :
  CACHE_DICT w = JDict d →
  (url ∈ dom d →
     ∃ body w', fetch url w = (Ok body, w')
       ∧ d !! url = Some body
       ∧ CACHE_DICT w' = CACHE_DICT w
       ∧ cache_file w' = cache_file w
       ∧ writes (new_events w w') = []
       ∧ gets (new_events w w') = [])
  ∧ (∀ o w', fetch url w = (o, w') → writes (new_events w w') ≠ [] → url ∉ dom d).
Proof.
  intros Hc. split.
  - intros [body Hd]%elem_of_dom. exists body. eexists.
    split; [by apply fetch_hit with d|].
    cbn. erewrite new_events_app by reflexivity. by rewrite Hc.
  - intros o w' Hf Hwr Hin. apply elem_of_dom in Hin as [body Hd].
    rewrite (fetch_hit url d body w Hc Hd) in Hf. injection Hf as <- <-.
    apply Hwr. by erewrite new_events_app by reflexivity.
Qed.

(** [load_cache] never raises, and touches neither cache nor file. *)
Lemma load_cache_returns (w : world) :
  ∃ v w', load w = (Ok v, w')
          ∧ CACHE_DICT w' = CACHE_DICT w ∧ cache_file w' = cache_file w.
Proof.
  destruct w as [c f t]. unfold load_cache, open_read. unfold_monad. cbn.
  destruct f as [|[] wr contents]; cbn; eauto.
  destruct (json_loads contents); cbn; eauto.
Qed.

(** C7. Robust loading.  [load_cache] always returns: the empty dict
    when the file is absent, cannot be read, or holds text that
    [json.loads] rejects; and the decoded value, in particular the
    dict of a well-formed JSON object, when the file holds text that
    [json.loads] accepts. *)
Theorem load_cache_robust (w : world) :
  (∃ v w', load w = (Ok v, w'))
  ∧ (cache_file w = NoFile → (load w).1 = Ok (JDict ∅))
  ∧ (∀ wr contents,
       cache_file w = File false wr contents → (load w).1 = Ok (JDict ∅))
  ∧ (∀ wr contents,
       cache_file w = File true wr contents →
       json_loads contents = None → (load w).1 = Ok (JDict ∅))
  ∧ (∀ wr contents v,
       cache_file w = File true wr contents →
       json_loads contents = Some v → (load w).1 = Ok v).
Proof.
  split.
  { destruct (load_cache_returns w) as (v & w' & H & _). eauto. }
  destruct w as [c f t]. unfold load_cache, open_read. unfold_monad. cbn.
  repeat split.
  - by intros ->.
  - by intros wr contents ->.
  - intros wr contents -> Hj. cbn. by rewrite Hj.
  - intros wr contents v -> Hj. cbn. by rewrite Hj.
Qed.

(** C8. Round trip of the cache file.  With the file accessible and a
    codec that reads back what it writes for the value at hand:
    saving a dict of strings and loading returns that dict; and saving
    what was loaded leaves a document that loads to the same value. *)
Theorem save_load_roundtrip (w : world) :
  accessible (cache_file w) = true →
  (∀ m : gmap string string,
     json_loads (json_dumps (str_dict m)) = Some (str_dict m) →
     ∃ w1 w2, save (str_dict m) w = (Ok tt, w1)
              ∧ load w1 = (Ok (str_dict m), w2))
  ∧ (∀ v w1,
       load w = (Ok v, w1) →
       json_loads (json_dumps v) = Some v →
       ∃ w2 w3, save v w1 = (Ok tt, w2)
                ∧ load w2 = (Ok v, w3)).
Proof.
  intros Hacc. destruct w as [c f t]. cbn in Hacc.
  assert (∀ v c' t',
    json_loads (json_dumps v) = Some v →
    ∃ w1 w2, save v (World c' f t') = (Ok tt, w1) ∧ load w1 = (Ok v, w2)) as Hround.
  { intros v c' t' Hj. unfold save_cache, open_write, load_cache, open_read.
    unfold_monad. cbn.
    destruct f as [|r wr contents]; cbn in *.
    - eexists _, _. split; [done|]. cbn. by rewrite Hj.
    - apply andb_true_iff in Hacc as [-> ->].
      eexists _, _. split; [done|]. cbn. by rewrite Hj. }
  split.
  - intros m Hj. by apply Hround.
  - intros v w1 Hload Hj.
    destruct (load_cache_returns (World c f t)) as (v' & w' & Hl & _ & Hf).
    rewrite Hl in Hload. injection Hload as -> ->.
    destruct w1 as [c1 f1 t1]. cbn in Hf. subst f1. by apply Hround.
Qed.

End CacheFacts.

(** ** Properties of Python strings *)

Module PyStrFacts.
Import PyStr.

Lemma lstrip_empty (s : string) : lstrip s = "" ↔ has_ink s = false.
Proof.
  induction s as [|c s IH]; cbn; [done|].
  destruct (is_space c); cbn; [done|]. split; discriminate.
Qed.

Lemma has_ink_lstrip (s : string) : has_ink (lstrip s) = has_ink s.
Proof.
  induction s as [|c s IH]; cbn; [done|].
  destruct (is_space c) eqn:E; cbn; [done|]. by rewrite E.
Qed.

Lemma rstrip_empty (s : string) : rstrip s = "" ↔ has_ink s = false.
Proof.
  induction s as [|c s IH]; cbn; [done|].
  destruct (rstrip s) as [|k kept] eqn:E.
  - destruct (is_space c); cbn.
    + split; [intros _; by apply IH | done].
    + split; discriminate.
  - split; [discriminate|].
    intros [_ H]%orb_false_iff. apply IH in H. discriminate.
Qed.

(** [s.strip()] is empty exactly when [s] is all white space. *)
Lemma strip_empty (s : string) : strip s = "" ↔ has_ink s = false.
Proof.
  unfold strip. by rewrite rstrip_empty, has_ink_lstrip.
Qed.

Lemma strip_nonempty (s : string) : strip s ≠ "" ↔ has_ink s = true.
Proof.
  rewrite strip_empty. by destruct (has_ink s).
Qed.

Lemma append_nonempty (s t : string) : t ≠ "" → s +:+ t ≠ "".
Proof.
  destruct s; cbn; [done|discriminate].
Qed.

End PyStrFacts.

(** ** Properties of the scrapers *)

Lemma fmap_Ok {A B} (f : A → B) (o : outcome A) (b : B) :
  f <$> o = Ok b → ∃ a, o = Ok a ∧ b = f a.
Proof.
  destruct o as [a|e]; cbn; [|discriminate]. intros [= <-]. eauto.
Qed.

Lemma bind_Ok {A B} (o : outcome A) (k : A → outcome B) (b : B) :
  o ≫= k = Ok b → ∃ a, o = Ok a ∧ k a = Ok b.
Proof.
  destruct o as [a|e]; cbn; [|discriminate]. eauto.
Qed.

(** What [site_of_soup] returns, field by field. *)
Lemma site_of_soup_Ok (soup : node) (site : NationalSite) :
  site_of_soup soup = Ok site →
  ∃ title designation city state zip tel,
    text_of (header_of soup) (Soup.has_class "Hero-title") = Ok title
    ∧ text_of (header_of soup) (Soup.has_class "Hero-designation") = Ok designation
    ∧ text_of (footer_of soup) (Soup.has_attr "itemprop" "addressLocality") = Ok city
    ∧ text_of (footer_of soup) (Soup.has_attr "itemprop" "addressRegion") = Ok state
    ∧ text_of (footer_of soup) (Soup.has_attr "itemprop" "postalCode") = Ok zip
    ∧ text_of (footer_of soup) (Soup.has_attr "itemprop" "telephone") = Ok tel
    ∧ site = NationalSite_init
               (if decide (PyStr.strip designation ≠ "")
                then PyStr.strip designation else "no category")
               (PyStr.strip title)
               (PyStr.strip city +:+ ", " +:+ PyStr.strip state)
               (PyStr.strip zip) (PyStr.strip tel).
Proof.
  unfold site_of_soup. intros H.
  apply bind_Ok in H as (? & (title & Ht & ->)%fmap_Ok & H).
  apply bind_Ok in H as (? & (designation & Hd & ->)%fmap_Ok & H).
  apply bind_Ok in H as (? & (city & Hc & ->)%fmap_Ok & H).
  apply bind_Ok in H as (? & (state & Hs & ->)%fmap_Ok & H).
  apply bind_Ok in H as (? & (zip & Hz & ->)%fmap_Ok & H).
  apply bind_Ok in H as (? & (tel & Hp & ->)%fmap_Ok & H).
  cbn in H. injection H as <-.
  by exists title, designation, city, state, zip, tel.
Qed.

(** The page of the specification's example. *)
Example isle_royale_parsed : site_of_soup isle_royale = Ok isle_royale_site.
Proof. vm_compute. reflexivity. Qed.

(** C4, as the code has it.  For every site made from a parsed page: the
    category is "no category" when the stripped designation text is
    empty and that text otherwise, so it is never empty; the address is
    the stripped city text, a comma and a space, and the stripped state
    text, also when either text is empty, so it is never empty. *)
Theorem site_defaulting (soup : node) (site : NationalSite) :
  site_of_soup soup = Ok site →
  ∃ designation city state,
    text_of (header_of soup) (Soup.has_class "Hero-designation") = Ok designation
    ∧ text_of (footer_of soup) (Soup.has_attr "itemprop" "addressLocality") = Ok city
    ∧ text_of (footer_of soup) (Soup.has_attr "itemprop" "addressRegion") = Ok state
    ∧ (PyStr.strip designation = "" → category site = "no category")
    ∧ (PyStr.strip designation ≠ "" → category site = PyStr.strip designation)
    ∧ category site ≠ ""
    ∧ address site = PyStr.strip city +:+ ", " +:+ PyStr.strip state
    ∧ address site ≠ "".
Proof.
  intros H.
  apply site_of_soup_Ok in H
    as (title & designation & city & state & zip & tel & _ & Hd & Hc & Hs & _ & _ & ->).
  exists designation, city, state. cbn.
  repeat split; try done.
  - intros E. by rewrite decide_False by (by intros ?).
  - intros E. by rewrite decide_True.
  - by case_decide.
  - by apply PyStrFacts.append_nonempty.
Qed.

(** [site_defaulting] on the page of Isle Royale. *)
Lemma site_defaulting_witness :
  site_of_soup isle_royale = Ok isle_royale_site
  ∧ ∃ designation city state,
      text_of (header_of isle_royale) (Soup.has_class "Hero-designation") = Ok designation
      ∧ text_of (footer_of isle_royale) (Soup.has_attr "itemprop" "addressLocality") = Ok city
      ∧ text_of (footer_of isle_royale) (Soup.has_attr "itemprop" "addressRegion") = Ok state
      ∧ (PyStr.strip designation = "" → category isle_royale_site = "no category")
      ∧ (PyStr.strip designation ≠ "" → category isle_royale_site = PyStr.strip designation)
      ∧ category isle_royale_site ≠ ""
      ∧ address isle_royale_site = PyStr.strip city +:+ ", " +:+ PyStr.strip state
      ∧ address isle_royale_site ≠ "".
Proof.
  split; [vm_compute; reflexivity|].
  apply (site_defaulting isle_royale). vm_compute. reflexivity.
Defined.

(** C4, as stated, fails: a page whose city text is empty yields a site
    whose address is ", MI", not the empty string. *)
Lemma empty_city_address_not_empty : ¬ specified_site_defaults.
Proof.
  intros claim.
  destruct (claim page_without_city
    (NationalSite_init "National Park" "Isle Royale" ", MI" "49931" "(906) 482-0984")
    "National Park" "" "MI") as (_ & _ & _ & Haddr); [by vm_compute..|].
  specialize (Haddr (or_introl eq_refl)). discriminate Haddr.
Qed.

(** C9, as the code has it.  The name of a site made from a parsed page
    is the stripped text of the title element: it is non-empty exactly
    when that text has a character that is not white space.  The record
    itself takes any name. *)
Theorem site_name_is_stripped_title (soup : node) (site : NationalSite) :
  site_of_soup soup = Ok site →
  ∃ title,
    text_of (header_of soup) (Soup.has_class "Hero-title") = Ok title
    ∧ name site = PyStr.strip title
    ∧ (name site ≠ "" ↔ PyStr.has_ink title = true)
    ∧ ∀ c n a z p, name (NationalSite_init c n a z p) = n.
Proof.
  intros H.
  apply site_of_soup_Ok in H
    as (title & designation & city & state & zip & tel & Ht & _ & _ & _ & _ & _ & ->).
  exists title. cbn. repeat split; try done;
    by apply PyStrFacts.strip_nonempty.
Qed.

(** [site_name_is_stripped_title] on the page of Isle Royale. *)
Lemma site_name_is_stripped_title_witness :
  site_of_soup isle_royale = Ok isle_royale_site
  ∧ ∃ title,
      text_of (header_of isle_royale) (Soup.has_class "Hero-title") = Ok title
      ∧ name isle_royale_site = PyStr.strip title
      ∧ (name isle_royale_site ≠ "" ↔ PyStr.has_ink title = true)
      ∧ ∀ c n a z p, name (NationalSite_init c n a z p) = n.
Proof.
  split; [vm_compute; reflexivity|].
  apply (site_name_is_stripped_title isle_royale). vm_compute. reflexivity.
Defined.

(** C9, as stated, fails: the record can be built with an empty name,
    and a page whose title element is empty yields a site whose name is
    the empty string. *)
Lemma site_without_name : ¬ specified_name_invariant.
Proof.
  intros [_ claim].
  by apply (claim page_without_title
    (NationalSite_init "National Park" "" "Houghton, MI" "49931" "(906) 482-0984")).
Qed.

(** C3 at the failing input: the menu lists "Michigan" twice, and the
    dict holds the URL of the second occurrence. *)
Theorem michigan_twice_keeps_second :
  state_dict_of_soup menu_michigan_twice
  = Ok {[ "michigan" := "https://www.nps.gov/state/mi/second.htm" ]}.
Proof. vm_compute. reflexivity. Qed.

(** A name without upper-case letter is its own key: there the first
    occurrence stays. *)
Example lowercase_twice_keeps_first :
  state_dict_of_soup menu_lowercase_twice
  = Ok {[ "michigan" := "https://www.nps.gov/state/mi/index.htm" ]}.
Proof. vm_compute. reflexivity. Qed.

(** ** Properties of the rendering of nearby places *)

(** A place whose city is not empty is rendered on one line, with the
    defaults for an empty category and an empty address. *)
Lemma place_with_city_rendered (title sic street town : string) (w : world) :
  town ≠ "" →
  render_place (place title sic street town) w
  = (Ok tt, World (CACHE_DICT w) (cache_file w)
                  (trace w ++ [Printed (place_entry title sic street town)])).
Proof.
  intros Ht. destruct town as [|c town]; [done|].
  destruct sic, street; vm_compute; reflexivity.
Qed.

(** A place whose city is empty is not rendered at all. *)
Lemma place_without_city_skipped (title sic street : string) (w : world) :
  render_place (place title sic street "") w = (Ok tt, w).
Proof. vm_compute. reflexivity. Qed.

(** C5 at the failing input: the result list holds one place, whose
    city is empty, and the session prints no entry for it, where the
    claim asks for "- Keweenaw Coffee (no category): 326 Shelden Ave, no city". *)
Theorem place_without_city_not_rendered (w : world) :
  place_entry "Keweenaw Coffee" "" "326 Shelden Ave" ""
    = "- Keweenaw Coffee (no category): 326 Shelden Ave, no city"
  ∧ ∃ w', render_places [place "Keweenaw Coffee" "" "326 Shelden Ave" ""] w = (Ok tt, w')
          ∧ new_events w w' = [].
Proof.
  split; [reflexivity|]. exists w. split.
  - cbn [render_places]. unfold mbind, M_bind, bind.
    by rewrite place_without_city_skipped.
  - by apply new_events_same.
Qed.

(** ** Which fetches go through the cache *)

Lemma cache_mediated_app (cached : gset string) (evs1 evs2 : list event) :
  cache_mediated cached evs1 →
  cache_mediated (list_to_set (gets evs1) ∪ cached) evs2 →
  cache_mediated cached (evs1 ++ evs2).
Proof.
  revert cached. induction evs1 as [|e evs1 IH]; intros cached H1 H2.
  - cbn in *. by replace cached with ((∅ : gset string) ∪ cached) by set_solver.
  - destruct e; cbn in *; try by apply IH.
    destruct H1 as [Hnew H1]. split; [done|]. apply IH; [done|].
    by replace (list_to_set (gets evs1) ∪ ({[url]} ∪ cached))
      with (({[url]} ∪ list_to_set (gets evs1)) ∪ cached) by set_solver.
Qed.

Section FetchPaths.

Variable internet : list event → string → list (string * string) → option string.
Variable json_dumps : json → string.
Variable json_loads : string → option json.
Variable BeautifulSoup : string → node.
Variable key : string.

Local Abbreviation fetch := (make_url_request_using_cache internet json_dumps).
Local Abbreviation site_instance := (get_site_instance internet json_dumps BeautifulSoup).
Local Abbreviation sites_loop := (park_loop internet json_dumps BeautifulSoup).

Lemma through_cache_lift {A} (o : outcome A) : through_cache (lift o).
Proof.
  intros w. exists []. cbn. rewrite app_nil_r. repeat split. intros _ _. set_solver.
Qed.

Lemma through_cache_bind {A B} (m : M A) (k : A → M B) :
  through_cache m → (∀ a, through_cache (k a)) → through_cache (m ≫= k).
Proof.
  intros Hm Hk w. destruct (Hm w) as (evs1 & Ht1 & Hm1 & Hc1).
  unfold mbind, M_bind, bind. destruct (m w) as [[a|e] w1] eqn:E; cbn in *.
  - destruct (Hk a w1) as (evs2 & Ht2 & Hm2 & Hc2).
    exists (evs1 ++ evs2). specialize (Hc1 a eq_refl).
    split; [by rewrite Ht2, Ht1, app_assoc|]. split.
    + apply cache_mediated_app; [done|]. by rewrite <- Hc1.
    + intros b Hb. rewrite (Hc2 b Hb), Hc1.
      unfold gets. rewrite omap_app. set_solver.
  - exists evs1. repeat split; try done.
Qed.

Lemma fetch_through_cache (url : string) : through_cache (fetch url).
Proof.
  intros [c f t]. unfold make_url_request_using_cache, requests_get, save_cache, open_write.
  unfold_monad. unfold cached_urls. cbn.
  destruct c as [| | | | |d]; cbn;
    try (exists []; rewrite app_nil_r; repeat split; discriminate).
  destruct (decide (url ∈ dom d)) as [Hin|Hout]; cbn.
  - exists [Printed "Using cache"]. repeat split. intros _ _. set_solver.
  - destruct (internet _ url []) as [text|]; cbn.
    + destruct f as [|r [] contents]; cbn; rewrite ?lookup_insert_eq; cbn.
      * exists [Printed "Fetching"; HttpGet url []; FileWrite (json_dumps (JDict (<[url:=JStr text]> d)))].
        rewrite <- !app_assoc. repeat split; try done.
        intros _ _. cbn. rewrite dom_insert_L. set_solver.
      * exists [Printed "Fetching"; HttpGet url []; FileWrite (json_dumps (JDict (<[url:=JStr text]> d)))].
        rewrite <- !app_assoc. repeat split; try done.
        intros _ _. cbn. rewrite dom_insert_L. set_solver.
      * exists [Printed "Fetching"; HttpGet url []].
        rewrite <- !app_assoc. repeat split; try done.
    + exists [Printed "Fetching"; HttpGet url []].
      rewrite <- !app_assoc. repeat split; try done.
Qed.

Lemma site_instance_through_cache (url : string) : through_cache (site_instance url).
Proof.
  unfold get_site_instance.
  apply through_cache_bind; [apply fetch_through_cache|]. intros text.
  apply through_cache_bind; [apply through_cache_lift|]. intros soup.
  apply through_cache_lift.
Qed.

Lemma sites_loop_through_cache (park_find : list node) (park_list : list NationalSite) :
  through_cache (sites_loop park_find park_list).
Proof.
  revert park_list. induction park_find as [|park rest IH]; intros park_list; cbn.
  - apply (through_cache_lift (Ok park_list)).
  - apply through_cache_bind; [apply through_cache_lift|]. intros parameter.
    apply through_cache_bind; [apply site_instance_through_cache|]. intros site.
    apply IH.
Qed.

(** A direct [requests.get]: one request, whatever the cache holds. *)
Lemma requests_get_events (url : string) (params : list (string * string)) (w : world) :
  ∃ o, requests_get internet url params w
       = (o, World (CACHE_DICT w) (cache_file w) (trace w ++ [HttpGet url params])).
Proof.
  unfold requests_get. unfold_monad.
  destruct (internet (trace w) url params); eauto.
Qed.

Lemma build_state_url_dict_events (w : world) :
  ∃ o, build_state_url_dict internet BeautifulSoup w
       = (o, World (CACHE_DICT w) (cache_file w) (trace w ++ [HttpGet state_url []])).
Proof.
  unfold build_state_url_dict. unfold mbind at 1. unfold M_bind, bind.
  destruct (requests_get_events state_url [] w) as [[text|e] ->]; unfold lift; eauto.
Qed.

Lemma get_nearby_places_events (site : NationalSite) (w : world) :
  ∃ o, get_nearby_places internet json_loads key site w
       = (o, World (CACHE_DICT w) (cache_file w)
                   (trace w ++ [HttpGet endpoint_url (places_params key site)])).
Proof.
  unfold get_nearby_places. unfold mbind, M_bind, bind.
  destruct (requests_get_events endpoint_url (places_params key site) w) as [[text|e] E];
    unfold places_params in E; rewrite E; [|eauto].
  destruct (json_loads text); unfold_monad; eauto.
Qed.

Lemma get_sites_for_state_events (url : string) (w : world) :
  ∃ rest,
    new_events w (get_sites_for_state internet json_dumps BeautifulSoup url w).2
      = HttpGet url [] :: rest
    ∧ cache_mediated (cached_urls w) rest.
Proof.
  unfold get_sites_for_state. unfold mbind at 1. unfold M_bind, bind.
  destruct (requests_get_events url [] w) as [[text|e] ->].
  - set (w1 := World _ _ _).
    match goal with |- context [?m w1] => set (rest_of_run := m) end.
    assert (through_cache rest_of_run) as Hrest.
    { apply through_cache_bind; [apply through_cache_lift|]. intros park_find.
      apply sites_loop_through_cache. }
    destruct (Hrest w1) as (evs & Ht & Hm & _).
    exists evs. split; [|done].
    apply new_events_app. rewrite Ht. cbn. by rewrite <- app_assoc.
  - exists []. split; [|done]. by apply new_events_app.
Qed.

(** C2, as the code has it.  Only the fetch of a site page goes
    through the cache.  The state index, the listing page of a state
    and the places API are each requested directly, whatever the cache
    holds: what the call returns is fixed by the answer of the network
    alone, and the cache dict and the cache file are left as they were.
    After the direct request of a listing page, the fetches of its sites
    start from that same cache and go through it. *)
Theorem only_site_pages_through_cache (w : world) :
  (∀ url, cache_mediated (cached_urls w) (new_events w (site_instance url w).2))
  ∧ build_state_url_dict internet BeautifulSoup w
    = (match internet (trace w) state_url [] with
       | Some text => state_dict_of_soup (BeautifulSoup text)
       | None => Raise ConnectionError
       end,
       World (CACHE_DICT w) (cache_file w) (trace w ++ [HttpGet state_url []]))
  ∧ (∀ url,
       (∀ text,
          internet (trace w) url [] = Some text →
          get_sites_for_state internet json_dumps BeautifulSoup url w
          = (park_find ← lift (listed_parks (BeautifulSoup (PyStr.strip text)));
             sites_loop park_find [])
              (World (CACHE_DICT w) (cache_file w) (trace w ++ [HttpGet url []]))
          ∧ ∃ rest,
              new_events w (get_sites_for_state internet json_dumps BeautifulSoup url w).2
              = HttpGet url [] :: rest
              ∧ cache_mediated (cached_urls w) rest)
       ∧ (internet (trace w) url [] = None →
          ∃ e w',
            get_sites_for_state internet json_dumps BeautifulSoup url w = (Raise e, w')
            ∧ CACHE_DICT w' = CACHE_DICT w
            ∧ cache_file w' = cache_file w
            ∧ (new_events w w' = [] ∨ new_events w w' = [HttpGet url []])))
  ∧ (∀ site,
       get_nearby_places internet json_loads key site w
       = (match internet (trace w) endpoint_url (places_params key site) with
          | Some text =>
              match json_loads text with
              | Some results => Ok results
              | None => Raise JSONDecodeError
              end
          | None => Raise ConnectionError
          end,
          World (CACHE_DICT w) (cache_file w)
                (trace w ++ [HttpGet endpoint_url (places_params key site)]))).
Proof.
  split; [|split; [|split]].
  - intros url. destruct (site_instance_through_cache url w) as (evs & Ht & Hm & _).
    by rewrite (new_events_app _ _ evs).
  - unfold build_state_url_dict, requests_get. unfold_monad.
    by destruct (internet (trace w) state_url []).
  - intros url. split.
    + intros text Hnet. split; [|apply get_sites_for_state_events].
      unfold get_sites_for_state. unfold mbind at 1. unfold M_bind, bind.
      unfold requests_get. rewrite Hnet. reflexivity.
    + intros Hnet.
      exists ConnectionError,
             (World (CACHE_DICT w) (cache_file w) (trace w ++ [HttpGet url []])).
      split; [|repeat split].
      * unfold get_sites_for_state. unfold mbind at 1. unfold M_bind, bind.
        unfold requests_get. rewrite Hnet. reflexivity.
      * right. by apply new_events_app.
  - intros site. unfold get_nearby_places, places_params, requests_get. unfold_monad.
    destruct (internet (trace w) endpoint_url _); [|reflexivity].
    by destruct (json_loads _).
Qed.

End FetchPaths.

(** C2, as stated, fails: with the home page in the cache, building the
    state index still requests it from the network. *)
Lemma home_page_requested_despite_cache :
  ¬ (∀ internet json_dumps json_loads BeautifulSoup key,
       specified_all_fetches_cached internet json_dumps json_loads BeautifulSoup key).
Proof.
  intros claim.
  destruct (claim (λ _ _ _, None) RefJson.dumps RefJson.loads (λ _, Text "") ""
                  world_with_home_page) as [Hindex _].
  destruct (build_state_url_dict_events (λ _ _ _, None) (λ _, Text "") world_with_home_page)
    as [o E].
  rewrite E in Hindex. erewrite new_events_app in Hindex by reflexivity.
  destruct Hindex as [Hnot _]. apply Hnot.
  unfold cached_urls, world_with_home_page, state_url. cbn.
  rewrite dom_singleton_L. set_solver.
Qed.

(** ** Properties of the command loop *)

Section SessionFacts.

Variable internet : list event → string → list (string * string) → option string.
Variable json_dumps : json → string.
Variable json_loads : string → option json.
Variable BeautifulSoup : string → node.
Variable key : string.

Local Abbreviation turn := (step internet json_dumps json_loads BeautifulSoup key).
Local Abbreviation session_run := (run internet json_dumps json_loads BeautifulSoup key).

Lemma run_app (s : session) (lines more : list string) (w : world) :
  session_run s (lines ++ more) w
  = session_run (session_run s lines w).1 more (session_run s lines w).2.
Proof.
  revert s w. induction lines as [|line lines IH]; intros s w; cbn; [done|].
  destruct (turn s line w) as [s1 w1]. apply IH.
Qed.

(** Once ended, the session reads nothing more. *)
Lemma run_ended (s : session) (lines : list string) (w : world) :
  s = Exited ∨ (∃ e, s = Crashed e) →
  session_run s lines w = (s, w).
Proof.
  intros Hs. induction lines as [|line lines IH]; cbn; [done|].
  by destruct Hs as [->|[e ->]].
Qed.

(** "back" at the site prompt. *)
Lemma back_at_site_prompt (site_dict : gmap string NationalSite) (answer : string)
      (w : world) :
  PyStr.lower answer = "back" →
  turn (SiteList site_dict) answer w
  = (StateSelect,
     World (CACHE_DICT w) (cache_file w)
           (trace w ++ [Printed ""; Prompted site_prompt answer])).
Proof.
  intros Hb. cbn. unfold inner_iteration, input. unfold_monad. cbn.
  rewrite Hb. cbn. by rewrite <- app_assoc.
Qed.

(** "exit" at the site prompt. *)
Lemma exit_at_site_prompt (site_dict : gmap string NationalSite) (answer : string)
      (w : world) :
  PyStr.lower answer = "exit" →
  turn (SiteList site_dict) answer w
  = (Exited,
     World (CACHE_DICT w) (cache_file w)
           (trace w ++ [Printed ""; Prompted site_prompt answer])).
Proof.
  intros Hb. cbn. unfold inner_iteration, input. unfold_monad. cbn.
  rewrite Hb. cbn. by rewrite <- app_assoc.
Qed.

(** "exit" at the state prompt. *)
Lemma exit_at_state_prompt (answer : string) (w : world) :
  PyStr.lower answer = "exit" →
  turn StateSelect answer w
  = (Exited,
     World (CACHE_DICT w) (cache_file w) (trace w ++ [Prompted state_prompt answer])).
Proof.
  intros Hb. cbn. unfold outer_iteration, input. unfold_monad. cbn.
  by rewrite Hb.
Qed.

(** A turn at the site prompt that stays there keeps the numbered list. *)
Lemma site_list_kept (site_dict site_dict' : gmap string NationalSite)
      (answer : string) (w w' : world) :
  turn (SiteList site_dict) answer w = (SiteList site_dict', w') →
  site_dict' = site_dict.
Proof.
  cbn. unfold inner_iteration, input. unfold_monad. cbn.
  repeat case_decide; cbn; try discriminate.
  destruct (site_dict !! PyStr.lower answer) as [site|]; cbn.
  - repeat (match goal with
            | |- context [match ?x with _ => _ end] => destruct x; cbn
            end; try discriminate);
      congruence.
  - congruence.
Qed.

(** C6. Navigation safety.  Whenever the session stands at the site
    prompt, however it got there, an answer that reads "back" takes it
    to the state prompt, where no numbered list is kept, after nothing
    but the prompt.  Whenever it stands at the state prompt or at the
    site prompt, an answer that reads "exit" ends it at once: no request,
    no write, and whatever is typed afterwards is not read. *)
Theorem navigation_safety (s s' : session) (lines : list string) (w w' : world)
      (answer : string) :
  session_run s lines w = (s', w') →
  (PyStr.lower answer = "back" →
   (∃ site_dict, s' = SiteList site_dict) →
   ∃ w'', session_run s (lines ++ [answer]) w = (StateSelect, w'')
          ∧ new_events w' w'' = [Printed ""; Prompted site_prompt answer])
  ∧ (PyStr.lower answer = "exit" →
     (s' = StateSelect ∨ ∃ site_dict, s' = SiteList site_dict) →
     ∀ more, ∃ w'',
       session_run s (lines ++ answer :: more) w = (Exited, w'')
       ∧ gets (new_events w' w'') = []
       ∧ writes (new_events w' w'') = []
       ∧ CACHE_DICT w'' = CACHE_DICT w'
       ∧ cache_file w'' = cache_file w').
Proof.
  intros Hrun. split.
  - intros Hb [site_dict ->]. rewrite run_app, Hrun. cbn [fst snd run].
    rewrite (back_at_site_prompt site_dict answer w' Hb).
    eexists. split; [done|]. by apply new_events_app.
  - intros He Hs more. rewrite run_app, Hrun. cbn [fst snd run].
    destruct Hs as [->|[site_dict ->]].
    + rewrite (exit_at_state_prompt answer w' He).
      rewrite run_ended by (by left).
      eexists. split; [done|]. cbn. by erewrite new_events_app by reflexivity.
    + rewrite (exit_at_site_prompt site_dict answer w' He).
      rewrite run_ended by (by left).
      eexists. split; [done|]. cbn. by erewrite new_events_app by reflexivity.
Qed.

End SessionFacts.

(** ** Properties of the reference codec *)

Module RefJsonFacts.
Import RefJson.

Lemma append_cons (c : ascii) (s t : string) : String c s +:+ t = String c (s +:+ t).
Proof. reflexivity. Qed.

Lemma append_assoc (a b c : string) : (a +:+ b) +:+ c = a +:+ (b +:+ c).
Proof.
  induction a as [|x a IH]; [done|]. rewrite !append_cons. by rewrite IH.
Qed.

Lemma length_append (a b : string) :
  String.length (a +:+ b) = String.length a + String.length b.
Proof.
  induction a as [|x a IH]; [done|]. rewrite append_cons. cbn. by rewrite IH.
Qed.

(** Reading back one escaped character. *)
Lemma read_escape_char (c : ascii) (t : string) :
  read_chars (escape_char c +:+ t) = r ← read_chars t; Some (String c r.1, r.2).
Proof.
  destruct c as [[] [] [] [] [] [] [] []]; reflexivity.
Qed.

Lemma read_escape (s t : string) :
  read_chars (escape s +:+ PyStr.dquote +:+ t) = Some (s, t).
Proof.
  induction s as [|c s IH]; [done|].
  change (escape (String c s)) with (escape_char c +:+ escape s).
  rewrite append_assoc, read_escape_char, IH. done.
Qed.

Lemma read_quote (s t : string) : read_string (quote s +:+ t) = Some (s, t).
Proof.
  unfold quote. rewrite !append_assoc. unfold read_string.
  change (PyStr.dquote +:+ ?x) with (String "034"%char x). cbn.
  apply read_escape.
Qed.

Lemma read_string_space (s : string) : read_string (String " " s) = read_string s.
Proof. reflexivity. Qed.

Lemma read_members_space (fuel : nat) (s : string) (acc : gmap string json) :
  read_members fuel (String " " s) acc = read_members fuel s acc.
Proof. destruct fuel; [done|]. cbn [read_members]. by rewrite read_string_space. Qed.

Lemma read_member (kv : string * string) (t : string) (acc : gmap string json) (fuel : nat) :
  read_members (S fuel) (member_text kv +:+ t) acc
  = match skip_ws t with
    | String c rest =>
        if decide (c = ","%char) then read_members fuel rest (put acc kv)
        else if decide (c = "}"%char) then Some (put acc kv, rest)
        else None
    | EmptyString => None
    end.
Proof.
  destruct kv as [k x]. unfold member_text. cbn [read_members fst snd].
  rewrite !append_assoc, read_quote. cbn.
  change (expect ":" (": " +:+ ?y)) with (Some (String " " y)). cbn.
  rewrite read_string_space, read_quote. done.
Qed.

Lemma read_members_text (l : list (string * string)) (acc : gmap string json)
      (fuel : nat) (t : string) :
  l ≠ [] → (length l ≤ fuel)%nat →
  read_members fuel (join ", " (member_text <$> l) +:+ String "}" t) acc
  = Some (foldl put acc l, t).
Proof.
  revert acc fuel. induction l as [|kv l IH]; intros acc fuel Hne Hlen; [done|].
  destruct fuel as [|fuel]; [cbn in Hlen; lia|].
  destruct l as [|kv' l].
  - cbn [fmap list_fmap join String.concat]. by rewrite read_member.
  - change (join ", " (member_text <$> kv :: kv' :: l))
      with (member_text kv +:+ ", " +:+ join ", " (member_text <$> kv' :: l)).
    rewrite !append_assoc, read_member.
    change (", " +:+ ?y) with (String "," (String " " y)).
    change (skip_ws (String "," ?y)) with (String ","%char y).
    cbv beta iota. rewrite decide_True by done.
    rewrite read_members_space. rewrite IH; [done|done|cbn in *; lia].
Qed.

Lemma dumps_str_dict (m : gmap string string) :
  dumps (str_dict m) = "{" +:+ join ", " (member_text <$> map_to_list m) +:+ "}".
Proof.
  unfold str_dict. cbn [dumps].
  assert (∀ l : list (string * string),
    foldr (uncurry (λ k x acc, (quote k +:+ ": " +:+ dumps x) :: acc)) []
          (prod_map id JStr <$> l)
    = member_text <$> l) as Hl.
  { induction l as [|[k x] l IH]; [done|]. rewrite !fmap_cons. cbn [foldr].
    by rewrite IH. }
  by rewrite map_fold_foldr, map_to_list_fmap, Hl.
Qed.

Lemma members_length (l : list (string * string)) :
  (length l ≤ String.length (join ", " (member_text <$> l)))%nat.
Proof.
  induction l as [|kv l IH]; [done|].
  destruct l as [|kv' l].
  - cbn. unfold member_text, quote. rewrite !length_append. cbn. lia.
  - change (join ", " (member_text <$> kv :: kv' :: l))
      with (member_text kv +:+ ", " +:+ join ", " (member_text <$> kv' :: l)).
    rewrite !length_append. cbn in *. lia.
Qed.

Lemma foldl_put (l : list (string * string)) :
  NoDup (l.*1) → foldl put ∅ l = JStr <$> (list_to_map l : gmap string string).
Proof.
  induction l as [|[k x] l IH] using rev_ind; intros Hnd.
  - cbn. by rewrite fmap_empty.
  - rewrite foldl_snoc. rewrite fmap_app in Hnd. apply NoDup_app in Hnd as (Hl & Hk & _).
    rewrite IH by done. unfold put. cbn.
    rewrite list_to_map_snoc.
    + by rewrite fmap_insert.
    + intros Hin. apply (Hk k Hin). cbn. by left.
Qed.

Lemma read_body_quote (rest : string) :
  read_body (String "034"%char rest)
  = read_members (S (String.length rest)) (String "034"%char rest) ∅.
Proof. reflexivity. Qed.

(** The reference codec reads back every dict of strings it writes. *)
Lemma loads_dumps (m : gmap string string) :
  loads (dumps (str_dict m)) = Some (str_dict m).
Proof.
  rewrite dumps_str_dict. unfold loads.
  change (expect "{" ("{" +:+ ?x)) with (Some x). cbn [mbind option_bind].
  destruct (map_to_list m) as [|kv l] eqn:E.
  - apply map_to_list_empty_iff in E as ->. unfold str_dict. by rewrite fmap_empty.
  - assert (∃ rest, join ", " (member_text <$> kv :: l) +:+ "}"
                    = String "034"%char rest) as [rest Hq].
    { destruct l; cbn; unfold member_text, quote, PyStr.dquote;
        rewrite !append_assoc, !append_cons; eauto. }
    rewrite Hq, read_body_quote.
    replace (S (String.length rest))
      with (String.length (join ", " (member_text <$> kv :: l) +:+ "}"))
      by (by rewrite Hq).
    rewrite <- Hq, read_members_text; [| done |].
    + cbn [mbind option_bind skip_ws]. rewrite foldl_put.
      * rewrite <- E, list_to_map_to_list. done.
      * rewrite <- E. apply NoDup_fst_map_to_list.
    + rewrite length_append. pose proof (members_length (kv :: l)). lia.
Qed.

End RefJsonFacts.

(** ** The theorems at sample inputs *)

(** [fetch_memoizes] on the stub page: first a miss in a fresh process,
    then a hit. *)
Lemma fetch_memoizes_witness :
  (CACHE_DICT fresh_world = JDict ∅
   ∧ (∅ : gmap string json) !! "https://x/a" = None
   ∧ stub_web (trace fresh_world ++ [Printed "Fetching"]) "https://x/a" [] = Some "BODY"
   ∧ writable (cache_file fresh_world) = true
   ∧ ∃ w',
       make_url_request_using_cache stub_web RefJson.dumps "https://x/a" fresh_world
         = (Ok (JStr "BODY"), w')
       ∧ gets (new_events fresh_world w') = ["https://x/a"]
       ∧ CACHE_DICT w' = JDict (<["https://x/a" := JStr "BODY"]> ∅)
       ∧ contents_of (cache_file w') = Some (RefJson.dumps (CACHE_DICT w'))
       ∧ writes (new_events fresh_world w') = [RefJson.dumps (CACHE_DICT w')]
       ∧ ∀ w'', later stub_web RefJson.dumps w' w'' →
           ∃ w3, make_url_request_using_cache stub_web RefJson.dumps "https://x/a" w''
                   = (Ok (JStr "BODY"), w3)
                 ∧ gets (new_events w'' w3) = [])
  ∧ (CACHE_DICT world_after_fetch = JDict {[ "https://x/a" := JStr "BODY" ]}
     ∧ ({[ "https://x/a" := JStr "BODY" ]} : gmap string json) !! "https://x/a"
       = Some (JStr "BODY")
     ∧ ∃ w',
         make_url_request_using_cache stub_web RefJson.dumps "https://x/a" world_after_fetch
           = (Ok (JStr "BODY"), w')
         ∧ gets (new_events world_after_fetch w') = []).
Proof.
  split.
  - repeat (split; [reflexivity|]).
    apply (fetch_memoizes stub_web RefJson.dumps "https://x/a" ∅ fresh_world);
      reflexivity.
  - repeat (split; [reflexivity|]).
    apply (fetch_memoizes stub_web RefJson.dumps "https://x/a"
             {[ "https://x/a" := JStr "BODY" ]} world_after_fetch);
      reflexivity.
Defined.

(** [fetch_hit_frame] on the stub page: the hit changes nothing, and
    the fetch that wrote the file was the miss. *)
Lemma fetch_hit_frame_witness :
  (CACHE_DICT world_after_fetch = JDict {[ "https://x/a" := JStr "BODY" ]}
   ∧ "https://x/a" ∈ dom ({[ "https://x/a" := JStr "BODY" ]} : gmap string json)
   ∧ ∃ body w',
       make_url_request_using_cache stub_web RefJson.dumps "https://x/a" world_after_fetch
         = (Ok body, w')
       ∧ ({[ "https://x/a" := JStr "BODY" ]} : gmap string json) !! "https://x/a" = Some body
       ∧ CACHE_DICT w' = CACHE_DICT world_after_fetch
       ∧ cache_file w' = cache_file world_after_fetch
       ∧ writes (new_events world_after_fetch w') = []
       ∧ gets (new_events world_after_fetch w') = [])
  ∧ (CACHE_DICT fresh_world = JDict ∅
     ∧ make_url_request_using_cache stub_web RefJson.dumps "https://x/a" fresh_world
       = (Ok (JStr "BODY"), world_after_fetch)
     ∧ writes (new_events fresh_world world_after_fetch) ≠ []
     ∧ "https://x/a" ∉ dom (∅ : gmap string json)).
Proof.
  assert ("https://x/a" ∈ dom ({[ "https://x/a" := JStr "BODY" ]} : gmap string json))
    as Hin.
  { apply elem_of_dom. exists (JStr "BODY"). reflexivity. }
  split.
  - split; [reflexivity|]. split; [exact Hin|].
    apply (fetch_hit_frame stub_web RefJson.dumps "https://x/a"
             {[ "https://x/a" := JStr "BODY" ]} world_after_fetch eq_refl).
    exact Hin.
  - split; [reflexivity|]. split; [reflexivity|]. split; [discriminate|].
    apply (fetch_hit_frame stub_web RefJson.dumps "https://x/a" ∅ fresh_world eq_refl)
      with (Ok (JStr "BODY")) world_after_fetch; [reflexivity|discriminate].
Defined.

(** [load_cache_robust] on the four states of the cache file, with the
    reference codec. *)
Lemma load_cache_robust_witness :
  (cache_file fresh_world = NoFile
   ∧ (load_cache RefJson.loads fresh_world).1 = Ok (JDict ∅))
  ∧ (cache_file (World (JDict ∅) (File false true "{}") []) = File false true "{}"
     ∧ (load_cache RefJson.loads (World (JDict ∅) (File false true "{}") [])).1
       = Ok (JDict ∅))
  ∧ (cache_file (world_with_file true "{not json") = File true true "{not json"
     ∧ RefJson.loads "{not json" = None
     ∧ (load_cache RefJson.loads (world_with_file true "{not json")).1 = Ok (JDict ∅))
  ∧ (cache_file (world_with_file true (RefJson.dumps (str_dict {[ "https://x/a" := "BODY" ]})))
       = File true true (RefJson.dumps (str_dict {[ "https://x/a" := "BODY" ]}))
     ∧ RefJson.loads (RefJson.dumps (str_dict {[ "https://x/a" := "BODY" ]}))
       = Some (str_dict {[ "https://x/a" := "BODY" ]})
     ∧ (load_cache RefJson.loads
          (world_with_file true (RefJson.dumps (str_dict {[ "https://x/a" := "BODY" ]})))).1
       = Ok (str_dict {[ "https://x/a" := "BODY" ]})).
Proof.
  split; [|split; [|split]].
  - split; [reflexivity|].
    destruct (load_cache_robust RefJson.loads fresh_world) as (_ & Habsent & _).
    apply Habsent. reflexivity.
  - split; [reflexivity|].
    destruct (load_cache_robust RefJson.loads (World (JDict ∅) (File false true "{}") []))
      as (_ & _ & Hlocked & _).
    apply (Hlocked true "{}"). reflexivity.
  - split; [reflexivity|]. split; [vm_compute; reflexivity|].
    destruct (load_cache_robust RefJson.loads (world_with_file true "{not json"))
      as (_ & _ & _ & Hbad & _).
    apply (Hbad true "{not json"); [reflexivity|vm_compute; reflexivity].
  - split; [reflexivity|]. split; [apply RefJsonFacts.loads_dumps|].
    destruct (load_cache_robust RefJson.loads
                (world_with_file true (RefJson.dumps (str_dict {[ "https://x/a" := "BODY" ]}))))
      as (_ & _ & _ & _ & Hgood).
    apply (Hgood true (RefJson.dumps (str_dict {[ "https://x/a" := "BODY" ]})));
      [reflexivity|apply RefJsonFacts.loads_dumps].
Defined.

(** [save_load_roundtrip] in a fresh process, with the reference codec. *)
Lemma save_load_roundtrip_witness :
  accessible (cache_file fresh_world) = true
  ∧ (RefJson.loads (RefJson.dumps (str_dict {[ "https://x/a" := "BODY" ]}))
       = Some (str_dict {[ "https://x/a" := "BODY" ]})
     ∧ ∃ w1 w2,
         save_cache RefJson.dumps (str_dict {[ "https://x/a" := "BODY" ]}) fresh_world
           = (Ok tt, w1)
         ∧ load_cache RefJson.loads w1 = (Ok (str_dict {[ "https://x/a" := "BODY" ]}), w2))
  ∧ (load_cache RefJson.loads fresh_world = (Ok (JDict ∅), fresh_world)
     ∧ RefJson.loads (RefJson.dumps (JDict ∅)) = Some (JDict ∅)
     ∧ ∃ w2 w3,
         save_cache RefJson.dumps (JDict ∅) fresh_world = (Ok tt, w2)
         ∧ load_cache RefJson.loads w2 = (Ok (JDict ∅), w3)).
Proof.
  destruct (save_load_roundtrip RefJson.dumps RefJson.loads fresh_world eq_refl)
    as [Hsave Hload].
  split; [reflexivity|]. split.
  - split; [apply RefJsonFacts.loads_dumps|].
    apply Hsave. apply RefJsonFacts.loads_dumps.
  - split; [reflexivity|]. split; [reflexivity|].
    apply (Hload (JDict ∅) fresh_world); reflexivity.
Defined.

(** [navigation_safety] after one invalid answer at the site prompt. *)
Lemma navigation_safety_witness :
  run stub_web RefJson.dumps RefJson.loads blank_parser "" (SiteList ∅) ["7"] fresh_world
    = (SiteList ∅, world_after_bad_choice)
  ∧ (PyStr.lower "Back" = "back"
     ∧ ∃ w'',
         run stub_web RefJson.dumps RefJson.loads blank_parser "" (SiteList ∅)
             (["7"] ++ ["Back"]) fresh_world
           = (StateSelect, w'')
         ∧ new_events world_after_bad_choice w''
           = [Printed ""; Prompted site_prompt "Back"])
  ∧ (PyStr.lower "exit" = "exit"
     ∧ ∀ more, ∃ w'',
         run stub_web RefJson.dumps RefJson.loads blank_parser "" (SiteList ∅)
             (["7"] ++ "exit" :: more) fresh_world
           = (Exited, w'')
         ∧ gets (new_events world_after_bad_choice w'') = []
         ∧ writes (new_events world_after_bad_choice w'') = []
         ∧ CACHE_DICT w'' = CACHE_DICT world_after_bad_choice
         ∧ cache_file w'' = cache_file world_after_bad_choice).
Proof.
  split; [reflexivity|]. split.
  - split; [reflexivity|].
    apply (navigation_safety stub_web RefJson.dumps RefJson.loads blank_parser ""
             (SiteList ∅) (SiteList ∅) ["7"] fresh_world world_after_bad_choice "Back");
      [reflexivity|reflexivity|by exists ∅].
  - split; [reflexivity|].
    apply (navigation_safety stub_web RefJson.dumps RefJson.loads blank_parser ""
             (SiteList ∅) (SiteList ∅) ["7"] fresh_world world_after_bad_choice "exit");
      [reflexivity|reflexivity|right; by exists ∅].
Defined.

(** [only_site_pages_through_cache] in the sample session: the listing
    page of Michigan is answered, an address the sample network does not
    serve is not. *)
Lemma only_site_pages_through_cache_witness :
  sample_web (trace fresh_world) michigan_url [] = Some "LISTING"
  ∧ (get_sites_for_state sample_web RefJson.dumps sample_parser michigan_url fresh_world
     = (park_find ← lift (listed_parks (sample_parser (PyStr.strip "LISTING")));
        park_loop sample_web RefJson.dumps sample_parser park_find [])
         (World (CACHE_DICT fresh_world) (cache_file fresh_world)
                (trace fresh_world ++ [HttpGet michigan_url []]))
     ∧ ∃ rest,
         new_events fresh_world
           (get_sites_for_state sample_web RefJson.dumps sample_parser
              michigan_url fresh_world).2
         = HttpGet michigan_url [] :: rest
         ∧ cache_mediated (cached_urls fresh_world) rest)
  ∧ sample_web (trace fresh_world) "https://x/b" [] = None
  ∧ ∃ e w',
      get_sites_for_state sample_web RefJson.dumps sample_parser "https://x/b" fresh_world
      = (Raise e, w')
      ∧ CACHE_DICT w' = CACHE_DICT fresh_world
      ∧ cache_file w' = cache_file fresh_world
      ∧ (new_events fresh_world w' = []
         ∨ new_events fresh_world w' = [HttpGet "https://x/b" []]).
Proof.
  destruct (only_site_pages_through_cache sample_web RefJson.dumps sample_loads
              sample_parser "" fresh_world) as (_ & _ & Hlisting & _).
  split; [reflexivity|]. split.
  - apply (Hlisting michigan_url). reflexivity.
  - split; [reflexivity|]. apply (Hlisting "https://x/b"). reflexivity.
Defined.

(** ** Edge behaviour of the cache-backed fetch *)

Section FetchEdges.

Variable internet : list event → string → list (string * string) → option string.
Variable json_dumps : json → string.
Variable json_loads : string → option json.

Local Abbreviation fetch := (make_url_request_using_cache internet json_dumps).


(** X2. A miss while the cache file cannot be written: the fetch raises
    [PermissionError] after its one request; the dict holds the body
    already, the file does not. *)
Theorem fetch_file_locked (url text : string) (d : gmap string json) (w : world)
        (r : bool) (contents : string) :
  CACHE_DICT w = JDict d →
  d !! url = None →
  internet (trace w ++ [Printed "Fetching"]) url [] = Some text →
  cache_file w = File r false contents →
  fetch url w
  = (Raise PermissionError,
     World (JDict (<[url := JStr text]> d)) (File r false contents)
           (trace w ++ [Printed "Fetching"; HttpGet url []])).
Proof.
  intros Hc Hd Hnet Hf. destruct w as [c f t]. cbn in *. subst c f.
  unfold make_url_request_using_cache, requests_get, save_cache, open_write.
  unfold_monad. cbn.
  rewrite decide_False by (rewrite elem_of_dom, Hd; by intros [? ?]).
  cbn. rewrite Hnet. cbn. by rewrite <- app_assoc.
Qed.

(** X3. When [CACHE_DICT] is not a dict, the fetch raises
    [AttributeError] at once: no output, no request, no write. *)
Theorem fetch_without_dict (url : string) (w : world) :
  (∀ d, CACHE_DICT w ≠ JDict d) →
  fetch url w = (Raise AttributeError, w).
Proof.
  intros Hc. destruct w as [c f t]. cbn in *.
  unfold make_url_request_using_cache. unfold_monad. cbn.
  destruct c; try done. by destruct (Hc d).
Qed.

(** X4. The file follows the dict: a fetch that returns leaves the cache
    file holding the dump of [CACHE_DICT], if the file held it before or
    if the URL was not cached. *)
Theorem fetch_keeps_file_in_sync (url : string) (w w' : world) (body : json) :
  fetch url w = (Ok body, w') →
  in_sync json_dumps w ∨ url ∉ cached_urls w →
  in_sync json_dumps w'.
Proof.
  destruct w as [c f t]. unfold in_sync, cached_urls.
  unfold make_url_request_using_cache, requests_get, save_cache, open_write.
  unfold_monad. cbn.
  destruct c as [| | | | |d]; cbn; try discriminate.
  destruct (decide (url ∈ dom d)) as [Hin|Hout]; cbn.
  - destruct (d !! url); [|discriminate]. intros [= <- <-]. cbn.
    by intros [?|?].
  - destruct (internet _ url []) as [text|]; cbn; [|discriminate].
    destruct f as [|r [] contents]; cbn; rewrite ?lookup_insert_eq;
      try discriminate; by intros [= <- <-].
Qed.

(** X5. The cache outlives the process.  After a miss that was answered
    and saved, a new process that starts on the same cache file, with a
    codec that reads that file back, fetches the same URL with the same
    body and without a request. *)
Theorem fetch_survives_restart (url text : string) (d : gmap string json) (w : world) :
  CACHE_DICT w = JDict d →
  d !! url = None →
  internet (trace w ++ [Printed "Fetching"]) url [] = Some text →
  accessible (cache_file w) = true →
  json_loads (json_dumps (JDict (<[url := JStr text]> d)))
    = Some (JDict (<[url := JStr text]> d)) →
  ∃ w',
    fetch url w = (Ok (JStr text), w')
    ∧ ∀ globals log, ∃ w1 w2,
        (cache ← load_cache json_loads; set_CACHE_DICT cache)
          (World globals (cache_file w') log) = (Ok tt, w1)
        ∧ fetch url w1 = (Ok (JStr text), w2)
        ∧ gets (new_events w1 w2) = [].
Proof.
  intros Hc Hd Hnet Hacc Hcodec.
  assert (writable (cache_file w) = true) as Hw.
  { destruct (cache_file w) as [|r wr ?]; [done|]. cbn in *. by destruct r, wr. }
  destruct (fetch_miss internet json_dumps url text d w Hc Hd Hnet Hw) as [r Hf].
  assert (r = true) as ->.
  { destruct w as [c f t]. cbn in *. subst c.
    unfold make_url_request_using_cache, requests_get, save_cache, open_write in Hf.
    unfold_monad. cbn in Hf.
    rewrite decide_False in Hf by (rewrite elem_of_dom, Hd; by intros [? ?]).
    cbn in Hf. rewrite Hnet in Hf. cbn in Hf.
    destruct f as [|r0 wr ?]; cbn in *; [congruence|].
    apply andb_true_iff in Hacc as [-> ->]. cbn in Hf. congruence. }
  eexists. split; [exact Hf|].
  intros globals log. cbn [cache_file].
  eexists _, _. split.
  - unfold load_cache, open_read. unfold_monad. cbn. rewrite Hcodec. cbn. reflexivity.
  - split.
    + apply fetch_hit with (<[url := JStr text]> d); [done|apply lookup_insert_eq].
    + by erewrite new_events_app by reflexivity.
Qed.

End FetchEdges.


(** [fetch_file_locked] on the stub page with a read-only cache file. *)
Lemma fetch_file_locked_witness :
  CACHE_DICT world_read_only = JDict ∅
  ∧ (∅ : gmap string json) !! "https://x/a" = None
  ∧ stub_web (trace world_read_only ++ [Printed "Fetching"]) "https://x/a" [] = Some "BODY"
  ∧ cache_file world_read_only = File true false "{}"
  ∧ make_url_request_using_cache stub_web RefJson.dumps "https://x/a" world_read_only
    = (Raise PermissionError,
       World (JDict (<["https://x/a" := JStr "BODY"]> ∅)) (File true false "{}")
             (trace world_read_only ++ [Printed "Fetching"; HttpGet "https://x/a" []])).
Proof.
  repeat (split; [reflexivity|]).
  apply (fetch_file_locked stub_web RefJson.dumps "https://x/a" "BODY" ∅ world_read_only
           true "{}"); reflexivity.
Defined.

(** [fetch_without_dict] when the cache is a list. *)
Lemma fetch_without_dict_witness :
  (∀ d, CACHE_DICT world_with_list ≠ JDict d)
  ∧ make_url_request_using_cache stub_web RefJson.dumps "https://x/a" world_with_list
    = (Raise AttributeError, world_with_list).
Proof.
  assert (∀ d, CACHE_DICT world_with_list ≠ JDict d) as Hc by (intros d; discriminate).
  split; [exact Hc|].
  apply (fetch_without_dict stub_web RefJson.dumps "https://x/a" world_with_list Hc).
Defined.

(** [fetch_keeps_file_in_sync] on the first fetch of a fresh process. *)
Lemma fetch_keeps_file_in_sync_witness :
  make_url_request_using_cache stub_web RefJson.dumps "https://x/a" fresh_world
    = (Ok (JStr "BODY"), world_after_fetch)
  ∧ (in_sync RefJson.dumps fresh_world ∨ "https://x/a" ∉ cached_urls fresh_world)
  ∧ in_sync RefJson.dumps world_after_fetch.
Proof.
  assert ("https://x/a" ∉ cached_urls fresh_world) as Hout.
  { unfold cached_urls, fresh_world. cbn. rewrite dom_empty_L. apply not_elem_of_empty. }
  split; [reflexivity|]. split; [right; exact Hout|].
  apply (fetch_keeps_file_in_sync stub_web RefJson.dumps "https://x/a"
           fresh_world world_after_fetch (JStr "BODY")); [reflexivity|right; exact Hout].
Defined.

(** [fetch_survives_restart] on the stub page, with the reference codec. *)
Lemma fetch_survives_restart_witness :
  CACHE_DICT fresh_world = JDict ∅
  ∧ (∅ : gmap string json) !! "https://x/a" = None
  ∧ stub_web (trace fresh_world ++ [Printed "Fetching"]) "https://x/a" [] = Some "BODY"
  ∧ accessible (cache_file fresh_world) = true
  ∧ RefJson.loads (RefJson.dumps (JDict (<["https://x/a" := JStr "BODY"]> ∅)))
    = Some (JDict (<["https://x/a" := JStr "BODY"]> ∅))
  ∧ ∃ w',
      make_url_request_using_cache stub_web RefJson.dumps "https://x/a" fresh_world
        = (Ok (JStr "BODY"), w')
      ∧ ∀ globals log, ∃ w1 w2,
          (cache ← load_cache RefJson.loads; set_CACHE_DICT cache)
            (World globals (cache_file w') log) = (Ok tt, w1)
          ∧ make_url_request_using_cache stub_web RefJson.dumps "https://x/a" w1
            = (Ok (JStr "BODY"), w2)
          ∧ gets (new_events w1 w2) = [].
Proof.
  repeat (split; [reflexivity|]).
  apply (fetch_survives_restart stub_web RefJson.dumps RefJson.loads
           "https://x/a" "BODY" ∅ fresh_world); reflexivity.
Defined.

(** ** The state index *)

Module StateIndexFacts.

Lemma lower_char_not_upper (c : ascii) : PyStr.is_upper (PyStr.lower_char c) = false.
Proof. destruct c as [[] [] [] [] [] [] [] []]; reflexivity. Qed.

Lemma lower_has_no_upper (s : string) : has_upper (PyStr.lower s) = false.
Proof.
  induction s as [|c s IH]; [done|]. cbn. by rewrite lower_char_not_upper, IH.
Qed.

Lemma lower_fixes (s : string) : has_upper s = false → PyStr.lower s = s.
Proof.
  induction s as [|c s IH]; [done|]. cbn.
  intros [Hc Hs]%orb_false_iff. unfold PyStr.lower_char. by rewrite Hc, IH.
Qed.

(** The loop is a fold of [add_state] over the links it reads. *)
Lemma state_dict_loop_fold (state_list : list node) (state_dict : gmap string string) :
  state_dict_loop state_list state_dict
  = (links ← links_of state_list; Ok (foldl add_state state_dict links)).
Proof.
  revert state_dict. induction state_list as [|states rest IH]; intros state_dict; [done|].
  cbn [state_dict_loop links_of]. unfold item_link.
  destruct (Soup.on_tag _ Soup.get_text) as [state_name|e]; cbn; [|done].
  destruct (Soup.subscript _ "href") as [state_link|e]; cbn; [|done].
  destruct (decide (state_name ∈ dom state_dict)) as [Hin|Hout]; rewrite IH;
    destruct (links_of rest) as [links|e]; cbn; try done; f_equal; unfold add_state; cbn.
  - by rewrite decide_True.
  - by rewrite decide_False.
Qed.

Lemma state_dict_of_soup_fold (soup : node) :
  state_dict_of_soup soup = (links ← menu_links soup; Ok (foldl add_state ∅ links)).
Proof.
  unfold state_dict_of_soup, menu_links.
  destruct (Soup.on_tag _ _) as [state_list|e]; cbn; [|done].
  apply state_dict_loop_fold.
Qed.

(** The keys of the dict never have an upper-case letter. *)
Lemma fold_keys_lower (links : list (string * string)) (d : gmap string string) :
  (∀ k, k ∈ dom d → has_upper k = false) →
  ∀ k, k ∈ dom (foldl add_state d links) → has_upper k = false.
Proof.
  revert d. induction links as [|link links IH]; intros d Hd; [done|].
  cbn. apply IH. intros k. unfold add_state. case_decide; [by apply Hd|].
  rewrite dom_insert. intros [->%elem_of_singleton|Hk]%elem_of_union; [|by apply Hd].
  apply lower_has_no_upper.
Qed.

Lemma fold_entries (links : list (string * string)) (d : gmap string string)
      (k v : string) :
  foldl add_state d links !! k = Some v →
  d !! k = Some v ∨ ∃ link, link ∈ links ∧ state_entry link = (k, v).
Proof.
  revert d. induction links as [|link links IH]; intros d; [by left|].
  cbn. intros [Hk|(link' & Hin & He)]%IH.
  - unfold add_state in Hk. case_decide; [by left|].
    destruct (state_entry link) as [a b] eqn:E. cbn in Hk.
    destruct (decide (a = k)) as [->|Ne].
    + rewrite lookup_insert_eq in Hk. injection Hk as ->. right. exists link.
      split; [by left|done].
    + rewrite lookup_insert_ne in Hk by done. by left.
  - right. exists link'. split; [by right|done].
Qed.

Lemma fold_covers (links : list (string * string)) (d : gmap string string) :
  (∀ k, k ∈ dom d → has_upper k = false) →
  dom d ⊆ dom (foldl add_state d links)
  ∧ ∀ link, link ∈ links → PyStr.lower link.1 ∈ dom (foldl add_state d links).
Proof.
  revert d. induction links as [|link links IH]; intros d Hd.
  { split; [done|]. intros link Hin. by apply elem_of_nil in Hin. }
  cbn.
  assert (∀ k, k ∈ dom (add_state d link) → has_upper k = false) as Hd'.
  { intros k. apply (fold_keys_lower [link] d Hd k). }
  destruct (IH (add_state d link) Hd') as [Hsub Hall].
  assert (dom d ⊆ dom (add_state d link)) as Hstep.
  { unfold add_state. case_decide; [done|]. rewrite dom_insert. set_solver. }
  split; [set_solver|].
  intros link' [->|Hin]%elem_of_cons; [|by apply Hall].
  apply Hsub. unfold add_state. case_decide as Hk.
  - rewrite lower_fixes; [done|]. by apply Hd.
  - rewrite dom_insert. set_solver.
Qed.

(** When every name has an upper-case letter, each link is written. *)
Lemma fold_upper (links : list (string * string)) (d : gmap string string) :
  (∀ k, k ∈ dom d → has_upper k = false) →
  Forall (λ link, has_upper link.1 = true) links →
  foldl add_state d links
  = foldl (λ acc link, <[(state_entry link).1 := (state_entry link).2]> acc) d links.
Proof.
  revert d. induction links as [|link links IH]; intros d Hd Hup; [done|].
  apply Forall_cons in Hup as [Hlink Hup]. cbn.
  assert (add_state d link = <[(state_entry link).1 := (state_entry link).2]> d) as ->.
  { unfold add_state. case_decide as Hk; [|done].
    apply Hd in Hk. congruence. }
  apply IH; [|done]. intros k.
  rewrite dom_insert. intros [->%elem_of_singleton|Hk]%elem_of_union; [|by apply Hd].
  apply lower_has_no_upper.
Qed.

Lemma foldl_insert_rev (entries : list (string * string)) :
  foldl (λ acc e, <[e.1 := e.2]> acc) (∅ : gmap string string) entries
  = list_to_map (rev entries).
Proof.
  induction entries as [|e entries IH] using rev_ind; [done|].
  rewrite foldl_snoc, rev_unit, IH. done.
Qed.

(** When no name has an upper-case letter, a link is written only if
    its name is new. *)
Lemma fold_lower (links : list (string * string)) (d : gmap string string) :
  Forall (λ link, has_upper link.1 = false) links →
  foldl add_state d links = d ∪ list_to_map (state_entry <$> links).
Proof.
  revert d. induction links as [|link links IH]; intros d Hlow.
  { cbn. by rewrite (right_id ∅ (∪)). }
  apply Forall_cons in Hlow as [Hlink Hlow]. cbn [foldl].
  rewrite IH by done. rewrite fmap_cons. cbn [list_to_map foldr].
  unfold add_state, state_entry. cbn [fst snd]. rewrite (lower_fixes _ Hlink).
  set (rest := list_to_map _). set (url := state_url +:+ link.2).
  apply map_eq. intros k. case_decide as Hk.
  - rewrite !lookup_union.
    destruct (decide (link.1 = k)) as [<-|Hne].
    + apply elem_of_dom in Hk as [v Hv]. rewrite Hv, lookup_insert_eq.
      by destruct (rest !! link.1).
    + by rewrite lookup_insert_ne.
  - apply not_elem_of_dom in Hk. rewrite !lookup_union.
    destruct (decide (link.1 = k)) as [<-|Hne].
    + rewrite !lookup_insert_eq, Hk. cbn. by destruct (rest !! link.1).
    + by rewrite !lookup_insert_ne.
Qed.

End StateIndexFacts.

(** X6. What the state index holds.  When [build_state_url_dict] gets a
    dict out of a page, the menu of the page was read link by link; the
    keys of the dict are exactly the lower-cased link texts, none has an
    upper-case letter, and every value is the base URL followed by the
    [href] of a link with that lower-cased text. *)
Theorem state_index_entries (soup : node) (state_dict : gmap string string) :
  state_dict_of_soup soup = Ok state_dict →
  ∃ links,
    menu_links soup = Ok links
    ∧ dom state_dict = list_to_set ((λ link, PyStr.lower link.1) <$> links)
    ∧ (∀ k, k ∈ dom state_dict → has_upper k = false)
    ∧ (∀ k v, state_dict !! k = Some v →
         ∃ link, link ∈ links ∧ k = PyStr.lower link.1 ∧ v = state_url +:+ link.2).
Proof.
  rewrite StateIndexFacts.state_dict_of_soup_fold.
  destruct (menu_links soup) as [links|e]; cbn; [|discriminate].
  intros [= <-]. exists links. split; [done|].
  assert (∀ k, k ∈ dom (∅ : gmap string string) → has_upper k = false) as H0.
  { intros k. rewrite dom_empty. by intros ?%not_elem_of_empty. }
  assert (∀ k v, foldl add_state ∅ links !! k = Some v →
            ∃ link, link ∈ links ∧ k = PyStr.lower link.1 ∧ v = state_url +:+ link.2)
    as Hentries.
  { intros k v [Hk|(link & Hin & He)]%StateIndexFacts.fold_entries; [done|].
    exists link. split; [done|]. unfold state_entry in He. by injection He as <- <-. }
  split; [|split; [by apply StateIndexFacts.fold_keys_lower|done]].
  apply set_eq. intros k. rewrite elem_of_list_to_set, list_elem_of_fmap. split.
  - intros [v Hk]%elem_of_dom. destruct (Hentries k v Hk) as (link & Hin & -> & _).
    by exists link.
  - intros (link & -> & Hin).
    by apply (StateIndexFacts.fold_covers links ∅ H0).
Qed.

(** [state_index_entries] on the menu that lists Michigan twice. *)
Lemma state_index_entries_witness :
  state_dict_of_soup menu_michigan_twice
    = Ok {[ "michigan" := "https://www.nps.gov/state/mi/second.htm" ]}
  ∧ ∃ links,
      menu_links menu_michigan_twice = Ok links
      ∧ dom ({[ "michigan" := "https://www.nps.gov/state/mi/second.htm" ]}
               : gmap string string)
        = list_to_set ((λ link, PyStr.lower link.1) <$> links)
      ∧ (∀ k, k ∈ dom ({[ "michigan" := "https://www.nps.gov/state/mi/second.htm" ]}
                         : gmap string string) → has_upper k = false)
      ∧ (∀ k v, ({[ "michigan" := "https://www.nps.gov/state/mi/second.htm" ]}
                   : gmap string string) !! k = Some v →
           ∃ link, link ∈ links ∧ k = PyStr.lower link.1 ∧ v = state_url +:+ link.2).
Proof.
  split; [vm_compute; reflexivity|].
  apply (state_index_entries menu_michigan_twice). vm_compute. reflexivity.
Defined.

(** X7. Which occurrence of a state stays.  When every link text of the
    menu has an upper-case letter, the guard of the loop never holds and
    each state maps to the URL of its last occurrence; when no link text
    has one, each state maps to the URL of its first occurrence. *)
Theorem state_index_occurrence (soup : node) (links : list (string * string)) :
  menu_links soup = Ok links →
  (Forall (λ link, has_upper link.1 = true) links →
   state_dict_of_soup soup = Ok (list_to_map (rev (state_entry <$> links))))
  ∧ (Forall (λ link, has_upper link.1 = false) links →
     state_dict_of_soup soup = Ok (list_to_map (state_entry <$> links))).
Proof.
  intros Hlinks. rewrite StateIndexFacts.state_dict_of_soup_fold, Hlinks. cbn. split.
  - intros Hup. f_equal. rewrite StateIndexFacts.fold_upper.
    + rewrite <- StateIndexFacts.foldl_insert_rev. by rewrite foldl_fmap.
    + intros k. rewrite dom_empty. by intros ?%not_elem_of_empty.
    + done.
  - intros Hlow. f_equal. rewrite StateIndexFacts.fold_lower by done.
    by rewrite (left_id ∅ (∪)).
Qed.

(** [state_index_occurrence] on the two sample menus. *)
Lemma state_index_occurrence_witness :
  (menu_links menu_michigan_twice
     = Ok [("Michigan", "/state/mi/index.htm"); ("Michigan", "/state/mi/second.htm")]
   ∧ Forall (λ link : string * string, has_upper link.1 = true)
       [("Michigan", "/state/mi/index.htm"); ("Michigan", "/state/mi/second.htm")]
   ∧ state_dict_of_soup menu_michigan_twice
     = Ok (list_to_map (rev (state_entry <$>
             [("Michigan", "/state/mi/index.htm"); ("Michigan", "/state/mi/second.htm")]))))
  ∧ (menu_links menu_lowercase_twice
       = Ok [("michigan", "/state/mi/index.htm"); ("michigan", "/state/mi/second.htm")]
     ∧ Forall (λ link : string * string, has_upper link.1 = false)
         [("michigan", "/state/mi/index.htm"); ("michigan", "/state/mi/second.htm")]
     ∧ state_dict_of_soup menu_lowercase_twice
       = Ok (list_to_map (state_entry <$>
               [("michigan", "/state/mi/index.htm"); ("michigan", "/state/mi/second.htm")]))).
Proof.
  split.
  - assert (Forall (λ link : string * string, has_upper link.1 = true)
              [("Michigan", "/state/mi/index.htm"); ("Michigan", "/state/mi/second.htm")])
      as Hup by (repeat constructor).
    split; [vm_compute; reflexivity|]. split; [exact Hup|].
    destruct (state_index_occurrence menu_michigan_twice
                [("Michigan", "/state/mi/index.htm"); ("Michigan", "/state/mi/second.htm")])
      as [Hlast _]; [vm_compute; reflexivity|].
    exact (Hlast Hup).
  - assert (Forall (λ link : string * string, has_upper link.1 = false)
              [("michigan", "/state/mi/index.htm"); ("michigan", "/state/mi/second.htm")])
      as Hlow by (repeat constructor).
    split; [vm_compute; reflexivity|]. split; [exact Hlow|].
    destruct (state_index_occurrence menu_lowercase_twice
                [("michigan", "/state/mi/index.htm"); ("michigan", "/state/mi/second.htm")])
      as [_ Hfirst]; [vm_compute; reflexivity|].
    exact (Hfirst Hlow).
Defined.

(** ** Site pages *)

Lemma text_of_raises (tag : option node) (p : node → bool) (e : exn) :
  text_of tag p = Raise e → e = AttributeError.
Proof.
  unfold text_of. destruct tag as [n|]; cbn; [|congruence].
  destruct (Soup.find p n); cbn; congruence.
Qed.

Lemma site_of_soup_raises (soup : node) (e : exn) :
  site_of_soup soup = Raise e → e = AttributeError.
Proof.
  unfold site_of_soup.
  repeat match goal with
         | |- context [text_of ?t ?p] =>
             let E := fresh "E" in
             destruct (text_of t p) eqn:E; cbn;
             [|intros [= <-]; by apply text_of_raises in E]
         end.
  discriminate.
Qed.

Lemma site_of_found_texts (soup : node) :
  Forall found (site_texts soup) → ∃ site, site_of_soup soup = Ok site.
Proof.
  unfold site_texts. intros H.
  do 6 (let F := fresh "F" in
        apply Forall_cons in H as [F H]; unfold found in F; destruct F as [? F]).
  unfold site_of_soup.
  repeat match goal with E : text_of _ _ = Ok _ |- _ => rewrite E; clear E end.
  cbn. eauto.
Qed.

Lemma found_texts_of_site (soup : node) (site : NationalSite) :
  site_of_soup soup = Ok site → Forall found (site_texts soup).
Proof.
  intros (? & ? & ? & ? & ? & ? & H1 & H2 & H3 & H4 & H5 & H6 & _)%site_of_soup_Ok.
  unfold site_texts, found. repeat (constructor; [eauto|]). constructor.
Qed.

(** X8. A site is all or nothing.  [get_site_instance] makes a site from
    a parsed page exactly when the page has all six texts; when one is
    missing it raises [AttributeError], the only exception it has, and
    no site with defaults in its place is made. *)
Theorem site_all_or_nothing (soup : node) :
  (Forall found (site_texts soup) ↔ ∃ site, site_of_soup soup = Ok site)
  ∧ (¬ Forall found (site_texts soup) ↔ site_of_soup soup = Raise AttributeError)
  ∧ (∀ e, site_of_soup soup = Raise e → e = AttributeError).
Proof.
  split; [|split].
  - split; [apply site_of_found_texts|]. intros [site H]. by eapply found_texts_of_site.
  - split.
    + intros Hmiss. destruct (site_of_soup soup) as [site|e] eqn:E.
      * destruct Hmiss. by eapply found_texts_of_site.
      * by apply site_of_soup_raises in E as ->.
    + intros Hr [site H]%site_of_found_texts. congruence.
  - apply site_of_soup_raises.
Qed.

(** [site_all_or_nothing] on a page with all six texts and on a page
    without contact block. *)
Lemma site_all_or_nothing_witness :
  (Forall found (site_texts isle_royale)
   ∧ ∃ site, site_of_soup isle_royale = Ok site)
  ∧ (¬ Forall found (site_texts page_without_footer)
     ∧ site_of_soup page_without_footer = Raise AttributeError).
Proof.
  split.
  - assert (Forall found (site_texts isle_royale)) as Hall.
    { unfold site_texts, found. repeat (constructor; [eexists; vm_compute; reflexivity|]).
      constructor. }
    split; [exact Hall|].
    destruct (site_all_or_nothing isle_royale) as [[Hsite _] _]. exact (Hsite Hall).
  - assert (¬ Forall found (site_texts page_without_footer)) as Hmiss.
    { unfold site_texts. intros (_ & (_ & ([s Hs] & _)%Forall_cons)%Forall_cons)%Forall_cons.
      vm_compute in Hs. discriminate Hs. }
    split; [exact Hmiss|].
    destruct (site_all_or_nothing page_without_footer) as [_ [[Hraise _] _]].
    exact (Hraise Hmiss).
Defined.

(** ** Computations that keep the entries of the cache *)

Lemma keeps_entries_lift {A} (o : outcome A) : keeps_entries (lift o).
Proof. intros w d Hc. by exists d. Qed.

Lemma keeps_entries_log (e : event) : keeps_entries (log e).
Proof. intros w d Hc. by exists d. Qed.

Lemma keeps_entries_bind {A B} (m : M A) (k : A → M B) :
  keeps_entries m → (∀ a, keeps_entries (k a)) → keeps_entries (m ≫= k).
Proof.
  intros Hm Hk w d Hc. destruct (Hm w d Hc) as (d1 & Hc1 & Hsub1).
  unfold mbind, M_bind, bind. destruct (m w) as [[a|e] w1]; cbn in *.
  - destruct (Hk a w1 d1 Hc1) as (d2 & Hc2 & Hsub2).
    exists d2. split; [done|]. by transitivity d1.
  - by exists d1.
Qed.

(** ** Sites through the cache *)

Section SitesThroughCache.

Variable internet : list event → string → list (string * string) → option string.
Variable json_dumps : json → string.
Variable BeautifulSoup : string → node.

Local Abbreviation fetch := (make_url_request_using_cache internet json_dumps).
Local Abbreviation site_instance := (get_site_instance internet json_dumps BeautifulSoup).
Local Abbreviation sites_loop := (park_loop internet json_dumps BeautifulSoup).
Local Abbreviation sites_for_state := (get_sites_for_state internet json_dumps BeautifulSoup).

(** What a fetch returns is in the cache afterwards. *)
Lemma fetch_Ok_cached (url : string) (w w' : world) (body : json) :
  fetch url w = (Ok body, w') →
  ∃ d', CACHE_DICT w' = JDict d' ∧ d' !! url = Some body.
Proof.
  destruct w as [c f t].
  unfold make_url_request_using_cache, requests_get, save_cache, open_write.
  unfold_monad. cbn.
  destruct c as [| | | | |d]; cbn; try discriminate.
  destruct (decide (url ∈ dom d)) as [Hin|Hout]; cbn.
  - destruct (d !! url) eqn:E; [|discriminate]. intros [= <- <-]. cbn. eauto.
  - destruct (internet _ url []) as [text|]; cbn; [|discriminate].
    destruct f as [|r [] contents]; cbn; rewrite ?lookup_insert_eq;
      try discriminate; intros [= <- <-]; cbn; eexists; split; try done;
      apply lookup_insert_eq.
Qed.

Lemma site_instance_Ok (url : string) (w w' : world) (site : NationalSite) :
  site_instance url w = (Ok site, w') →
  ∃ text, fetch url w = (Ok (JStr text), w')
          ∧ site_of_soup (BeautifulSoup text) = Ok site.
Proof.
  unfold get_site_instance. unfold mbind, M_bind, bind.
  destruct (fetch url w) as [[body|e] w1]; [|discriminate].
  destruct body as [| | |text| |]; unfold lift; cbn; try discriminate.
  destruct (site_of_soup (BeautifulSoup text)) as [site'|e] eqn:E; [|discriminate].
  intros [= <- <-]. eauto.
Qed.

Lemma site_instance_hit (url text : string) (d : gmap string json) (site : NationalSite)
      (w : world) :
  CACHE_DICT w = JDict d →
  d !! url = Some (JStr text) →
  site_of_soup (BeautifulSoup text) = Ok site →
  site_instance url w
  = (Ok site, World (CACHE_DICT w) (cache_file w) (trace w ++ [Printed "Using cache"])).
Proof.
  intros Hc Hd Hs. unfold get_site_instance. unfold mbind, M_bind, bind.
  rewrite (fetch_hit internet json_dumps url d (JStr text) w Hc Hd).
  unfold lift. cbn. by rewrite Hs.
Qed.

(** X9. A site is fetched once.  After [get_site_instance] returned a
    site for a URL, whatever the process fetches or prints in between,
    calling it again returns the same site from the cache: no request,
    no write, the cache as it was. *)
Theorem site_instance_memoized (url : string) (w w' w'' : world) (site : NationalSite) :
  site_instance url w = (Ok site, w') →
  later internet json_dumps w' w'' →
  site_instance url w''
  = (Ok site, World (CACHE_DICT w'') (cache_file w'') (trace w'' ++ [Printed "Using cache"])).
Proof.
  intros (text & Hf & Hs)%site_instance_Ok Hl.
  destruct (fetch_Ok_cached url w w' _ Hf) as (d' & Hc' & Hd').
  destruct (later_keeps_entries internet json_dumps d' w' w'' Hl Hc') as (d'' & Hc'' & Hsub).
  apply (site_instance_hit url text d''); [done| |done].
  by eapply lookup_weaken.
Qed.

Lemma requests_get_keeps_entries (url : string) (params : list (string * string)) :
  keeps_entries (requests_get internet url params).
Proof.
  intros w d Hc. destruct (requests_get_events internet url params w) as [o ->].
  by exists d.
Qed.

Lemma fetch_keeps_all_entries (url : string) : keeps_entries (fetch url).
Proof.
  intros w d Hc. destruct (fetch url w) as [o w'] eqn:E.
  by apply (fetch_keeps_entries internet json_dumps url d w w' o).
Qed.

Lemma site_instance_keeps_entries (url : string) : keeps_entries (site_instance url).
Proof.
  unfold get_site_instance.
  apply keeps_entries_bind; [apply fetch_keeps_all_entries|]. intros text.
  apply keeps_entries_bind; [apply keeps_entries_lift|]. intros soup.
  apply keeps_entries_lift.
Qed.

Lemma sites_loop_keeps_entries (park_find : list node) (park_list : list NationalSite) :
  keeps_entries (sites_loop park_find park_list).
Proof.
  revert park_list. induction park_find as [|park rest IH]; intros park_list; cbn.
  - apply (keeps_entries_lift (Ok park_list)).
  - apply keeps_entries_bind; [apply keeps_entries_lift|]. intros parameter.
    apply keeps_entries_bind; [apply site_instance_keeps_entries|]. intros site.
    apply IH.
Qed.

Lemma site_cached_weaken (d d' : gmap string json) (park : node) (site : NationalSite) :
  d ⊆ d' →
  site_cached BeautifulSoup (JDict d) park site →
  site_cached BeautifulSoup (JDict d') park site.
Proof.
  intros Hsub (parameter & text & Hp & Hd & Hs). exists parameter, text.
  split; [done|]. split; [|done]. cbn in *.
  destruct (d !! _) as [x|] eqn:E; [|discriminate]. injection Hd as ->.
  by rewrite (lookup_weaken _ _ _ _ E Hsub).
Qed.

(** The sites the loop returns are those of the listed parks, in order,
    each parsed from a page that the cache holds afterwards. *)
Lemma sites_loop_Ok (park_find : list node) (park_list result : list NationalSite)
      (w w' : world) :
  sites_loop park_find park_list w = (Ok result, w') →
  ∃ sites, result = park_list ++ sites
           ∧ Forall2 (site_cached BeautifulSoup (CACHE_DICT w')) park_find sites.
Proof.
  revert park_list w. induction park_find as [|park rest IH]; intros park_list w.
  - cbn. intros [= <- <-]. exists []. by rewrite app_nil_r.
  - cbn [park_loop]. unfold mbind at 1. unfold M_bind, bind, lift.
    destruct (Soup.subscript _ "href") as [parameter|e] eqn:Ep; [|discriminate].
    unfold mbind at 1. unfold M_bind, bind.
    destruct (site_instance _ w) as [[site|e] w1] eqn:Es; [|discriminate].
    intros Hrest. destruct (IH _ _ Hrest) as (sites & -> & Hall).
    exists (site :: sites). split; [by rewrite <- app_assoc|].
    constructor; [|done].
    apply site_instance_Ok in Es as (text & Hf & Hs).
    destruct (fetch_Ok_cached _ _ _ _ Hf) as (d1 & Hc1 & Hd1).
    destruct (sites_loop_keeps_entries rest (park_list ++ [site]) w1 d1 Hc1)
      as (d' & Hc' & Hsub).
    rewrite Hrest in Hc'. cbn in Hc'. rewrite Hc'.
    apply site_cached_weaken with d1; [done|].
    exists parameter, text. cbn. by rewrite Hd1.
Qed.

(** With every page in the cache, the loop asks the network nothing. *)
Lemma sites_loop_cached (cache : json) (park_find : list node)
      (sites : list NationalSite) :
  Forall2 (site_cached BeautifulSoup cache) park_find sites →
  ∀ park_list w,
    CACHE_DICT w = cache →
    sites_loop park_find park_list w
    = (Ok (park_list ++ sites),
       World (CACHE_DICT w) (cache_file w)
             (trace w ++ replicate (length sites) (Printed "Using cache"))).
Proof.
  induction 1 as [|park site rest sites Hsite Hall IH]; intros park_list w Hc.
  - cbn. rewrite !app_nil_r. by destruct w.
  - destruct Hsite as (parameter & text & Hp & Hd & Hs).
    cbn [park_loop]. unfold mbind at 1. unfold M_bind, bind, lift. rewrite Hp.
    unfold mbind at 1. unfold M_bind, bind.
    destruct cache as [| | | | |d]; try discriminate. cbn in Hd.
    destruct (d !! _) as [x|] eqn:E; [|discriminate]. injection Hd as ->.
    rewrite (site_instance_hit _ text d site w Hc E Hs).
    rewrite IH by done. cbn. by rewrite <- !app_assoc.
Qed.

Lemma sites_for_state_unfold (url text : string) (w : world) :
  internet (trace w) url [] = Some text →
  sites_for_state url w
  = (park_find ← lift (listed_parks (BeautifulSoup (PyStr.strip text)));
     sites_loop park_find [])
      (World (CACHE_DICT w) (cache_file w) (trace w ++ [HttpGet url []])).
Proof.
  intros Hnet. unfold get_sites_for_state. unfold mbind at 1. unfold M_bind, bind.
  unfold requests_get. rewrite Hnet. reflexivity.
Qed.

Lemma sites_for_state_Ok (url : string) (w w' : world) (sites : list NationalSite) :
  sites_for_state url w = (Ok sites, w') →
  ∃ text parks,
    internet (trace w) url [] = Some text
    ∧ listed_parks (BeautifulSoup (PyStr.strip text)) = Ok parks
    ∧ Forall2 (site_cached BeautifulSoup (CACHE_DICT w')) parks sites.
Proof.
  destruct (internet (trace w) url []) as [text|] eqn:Hnet.
  - rewrite (sites_for_state_unfold url text w Hnet).
    unfold mbind, M_bind, bind, lift.
    destruct (listed_parks _) as [parks|e] eqn:Hparks; [|discriminate].
    intros (sites' & -> & Hall)%sites_loop_Ok. by exists text, parks.
  - unfold get_sites_for_state. unfold mbind at 1. unfold M_bind, bind.
    unfold requests_get. rewrite Hnet. discriminate.
Qed.

Lemma site_cached_later (w' w'' : world) (park : node) (site : NationalSite) :
  later internet json_dumps w' w'' →
  site_cached BeautifulSoup (CACHE_DICT w') park site →
  site_cached BeautifulSoup (CACHE_DICT w'') park site.
Proof.
  intros Hl Hsite.
  destruct (CACHE_DICT w') as [| | | | |d'] eqn:Hc';
    try (destruct Hsite as (? & ? & _ & Hd & _); discriminate).
  destruct (later_keeps_entries internet json_dumps d' w' w'' Hl Hc') as (d'' & -> & Hsub).
  by apply site_cached_weaken with d'.
Qed.

(** X10. The sites of a state.  When [get_sites_for_state] returns, the
    network answered the listing page, the parks list of that page was
    found, and the result has one site for each listed park, in page
    order, each parsed from the page that the cache now holds for the
    link of that park. *)
Theorem sites_in_page_order (url : string) (w w' : world) (sites : list NationalSite) :
  sites_for_state url w = (Ok sites, w') →
  ∃ text parks,
    internet (trace w) url [] = Some text
    ∧ listed_parks (BeautifulSoup (PyStr.strip text)) = Ok parks
    ∧ length sites = length parks
    ∧ Forall2 (site_cached BeautifulSoup (CACHE_DICT w')) parks sites.
Proof.
  intros (text & parks & Hnet & Hparks & Hall)%sites_for_state_Ok.
  exists text, parks. repeat split; try done.
  symmetry. by eapply Forall2_length.
Qed.

(** X11. Listing a state again.  After [get_sites_for_state] returned the
    sites of a state, whatever the process fetches or prints in between,
    listing the same state again, the listing page being answered as
    before, returns the same sites and costs one request only, that of
    the listing page: every site comes from the cache, which is left as
    it was, as is its file. *)
Theorem second_listing_from_cache (url : string) (w w' w'' : world)
        (sites : list NationalSite) :
  sites_for_state url w = (Ok sites, w') →
  later internet json_dumps w' w'' →
  internet (trace w'') url [] = internet (trace w) url [] →
  sites_for_state url w''
  = (Ok sites,
     World (CACHE_DICT w'') (cache_file w'')
           (trace w'' ++ HttpGet url [] :: replicate (length sites) (Printed "Using cache"))).
Proof.
  intros (text & parks & Hnet & Hparks & Hall)%sites_for_state_Ok Hl Hsame.
  rewrite Hnet in Hsame.
  rewrite (sites_for_state_unfold url text w'' Hsame), Hparks.
  unfold mbind, M_bind, bind, lift.
  rewrite (sites_loop_cached (CACHE_DICT w'') parks sites).
  - cbn. by rewrite <- app_assoc.
  - eapply Forall2_impl; [exact Hall|]. intros park site. by apply site_cached_later.
  - done.
Qed.

End SitesThroughCache.

(** [site_instance_memoized] on the page of Isle Royale. *)
Lemma site_instance_memoized_witness :
  get_site_instance sample_web RefJson.dumps sample_parser isle_royale_url fresh_world
    = (Ok isle_royale_site, world_after_site)
  ∧ later sample_web RefJson.dumps world_after_site world_after_site
  ∧ get_site_instance sample_web RefJson.dumps sample_parser isle_royale_url world_after_site
    = (Ok isle_royale_site,
       World (CACHE_DICT world_after_site) (cache_file world_after_site)
             (trace world_after_site ++ [Printed "Using cache"])).
Proof.
  assert (get_site_instance sample_web RefJson.dumps sample_parser isle_royale_url
            fresh_world = (Ok isle_royale_site, world_after_site)) as Hfirst
    by (vm_compute; reflexivity).
  split; [exact Hfirst|]. split; [apply later_now|].
  exact (site_instance_memoized sample_web RefJson.dumps sample_parser isle_royale_url
           fresh_world world_after_site world_after_site isle_royale_site
           Hfirst (later_now _ _ _)).
Defined.

(** [sites_in_page_order] on the listing of Michigan. *)
Lemma sites_in_page_order_witness :
  get_sites_for_state sample_web RefJson.dumps sample_parser michigan_url fresh_world
    = (Ok [isle_royale_site], world_after_listing)
  ∧ ∃ text parks,
      sample_web (trace fresh_world) michigan_url [] = Some text
      ∧ listed_parks (sample_parser (PyStr.strip text)) = Ok parks
      ∧ length [isle_royale_site] = length parks
      ∧ Forall2 (site_cached sample_parser (CACHE_DICT world_after_listing))
                parks [isle_royale_site].
Proof.
  assert (get_sites_for_state sample_web RefJson.dumps sample_parser michigan_url
            fresh_world = (Ok [isle_royale_site], world_after_listing)) as Hfirst
    by (vm_compute; reflexivity).
  split; [exact Hfirst|].
  exact (sites_in_page_order sample_web RefJson.dumps sample_parser michigan_url
           fresh_world world_after_listing [isle_royale_site] Hfirst).
Defined.

(** [second_listing_from_cache] on the listing of Michigan. *)
Lemma second_listing_from_cache_witness :
  get_sites_for_state sample_web RefJson.dumps sample_parser michigan_url fresh_world
    = (Ok [isle_royale_site], world_after_listing)
  ∧ later sample_web RefJson.dumps world_after_listing world_after_listing
  ∧ sample_web (trace world_after_listing) michigan_url []
    = sample_web (trace fresh_world) michigan_url []
  ∧ get_sites_for_state sample_web RefJson.dumps sample_parser michigan_url
      world_after_listing
    = (Ok [isle_royale_site],
       World (CACHE_DICT world_after_listing) (cache_file world_after_listing)
             (trace world_after_listing
                ++ HttpGet michigan_url []
                   :: replicate (length [isle_royale_site]) (Printed "Using cache"))).
Proof.
  assert (get_sites_for_state sample_web RefJson.dumps sample_parser michigan_url
            fresh_world = (Ok [isle_royale_site], world_after_listing)) as Hfirst
    by (vm_compute; reflexivity).
  split; [exact Hfirst|]. split; [apply later_now|]. split; [reflexivity|].
  exact (second_listing_from_cache sample_web RefJson.dumps sample_parser michigan_url
           fresh_world world_after_listing world_after_listing [isle_royale_site]
           Hfirst (later_now _ _ _) eq_refl).
Defined.

(** ** Computations that only print *)

Lemma only_prints_lift {A} (o : outcome A) : only_prints (lift o).
Proof. intros w. exists []. cbn. by rewrite app_nil_r. Qed.

Lemma only_prints_print (line : string) : only_prints (print line).
Proof. intros w. by exists [Printed line]. Qed.

Lemma only_prints_input (prompt answer : string) : only_prints (input prompt answer).
Proof. intros w. by exists [Prompted prompt answer]. Qed.

Lemma only_prints_bind {A B} (m : M A) (k : A → M B) :
  only_prints m → (∀ a, only_prints (k a)) → only_prints (m ≫= k).
Proof.
  intros Hm Hk w. destruct (Hm w) as (evs1 & Ht1 & Hg1 & Hw1 & Hc1 & Hf1).
  unfold mbind, M_bind, bind. destruct (m w) as [[a|e] w1]; cbn in *.
  - destruct (Hk a w1) as (evs2 & Ht2 & Hg2 & Hw2 & Hc2 & Hf2).
    exists (evs1 ++ evs2). unfold gets, writes in *. rewrite !omap_app.
    rewrite Ht2, Ht1, app_assoc, Hg1, Hg2, Hw1, Hw2. repeat split; congruence.
  - by exists evs1.
Qed.

Lemma only_prints_keeps_entries {A} (m : M A) : only_prints m → keeps_entries m.
Proof.
  intros Hm w d Hc. destruct (Hm w) as (_ & _ & _ & _ & Hc' & _).
  exists d. by rewrite Hc'.
Qed.

Lemma render_place_only_prints (place : json) : only_prints (render_place place).
Proof.
  unfold render_place.
  repeat (apply only_prints_bind; [apply only_prints_lift|]; intros ?).
  destruct (py_is_empty_str _).
  - apply (only_prints_lift (Ok tt)).
  - apply only_prints_bind; [apply only_prints_lift|]. intros line.
    apply only_prints_print.
Qed.

Lemma render_places_only_prints (places : list json) : only_prints (render_places places).
Proof.
  induction places as [|place rest IH]; cbn.
  - apply (only_prints_lift (Ok tt)).
  - apply only_prints_bind; [apply render_place_only_prints|]. by intros _.
Qed.

Lemma list_sites_only_prints (all_states : list NationalSite) (index : nat)
      (site_dict : gmap string NationalSite) :
  only_prints (list_sites all_states index site_dict).
Proof.
  revert index site_dict. induction all_states as [|item rest IH]; intros index site_dict; cbn.
  - apply (only_prints_lift (Ok site_dict)).
  - apply only_prints_bind; [apply only_prints_print|]. intros _. apply IH.
Qed.

(** ** Rendering of nearby places *)

Lemma render_places_of_facts (l : list PlaceFact) (w : world) :
  render_places (place_of <$> l) w
  = (Ok tt, World (CACHE_DICT w) (cache_file w) (trace w ++ printed_places l)).
Proof.
  revert w. induction l as [|p l IH]; intros w.
  { cbn. rewrite app_nil_r. by destruct w. }
  rewrite fmap_cons. cbn [render_places]. unfold mbind, M_bind, bind.
  unfold printed_places. rewrite filter_cons. unfold place_of at 1.
  destruct (decide (place_town p ≠ "")) as [Hcity|Hcity].
  - rewrite place_with_city_rendered by done. rewrite IH. cbn.
    by rewrite <- app_assoc.
  - apply dec_stable in Hcity. rewrite Hcity, place_without_city_skipped. apply IH.
Qed.

(** X12. What is rendered of a result list.  Of a list of places whose
    fields are strings, the session prints one line for each place whose
    city is not empty, in the order of the list, with "no category" and
    "no address" for an empty category and an empty address; a place
    whose city is empty gets no line, so the number of lines is the
    number of places that have a city. *)
Theorem places_rendered (l : list PlaceFact) (w : world) :
  ∃ w',
    render_places (place_of <$> l) w = (Ok tt, w')
    ∧ new_events w w' = printed_places l
    ∧ length (new_events w w') = length (filter (λ p, place_town p ≠ "") l)
    ∧ CACHE_DICT w' = CACHE_DICT w ∧ cache_file w' = cache_file w.
Proof.
  eexists. split; [apply render_places_of_facts|].
  erewrite new_events_app by reflexivity. repeat split.
  unfold printed_places. by rewrite length_fmap.
Qed.

(** X13. A malformed element stops the rendering.  When an element of
    the result list has no name to read (it is no dict, or a dict without
    "name"), the exception of that lookup ends the rendering: the lines
    of the places before it stay printed, and nothing is printed for it
    or for the places after it. *)
Theorem rendering_stops_at_malformed (l : list PlaceFact) (bad : json) (rest : list json)
        (e : exn) (w : world) :
  py_getitem bad "name" = Raise e →
  render_places ((place_of <$> l) ++ bad :: rest) w
  = (Raise e, World (CACHE_DICT w) (cache_file w) (trace w ++ printed_places l)).
Proof.
  intros Hbad. revert w. induction l as [|p l IH]; intros w.
  { cbn [fmap list_fmap app render_places]. unfold mbind, M_bind, bind.
    unfold render_place. unfold mbind at 1. unfold M_bind, bind, lift. rewrite Hbad.
    cbn. rewrite app_nil_r. by destruct w. }
  rewrite fmap_cons. cbn [app render_places]. unfold mbind, M_bind, bind.
  unfold printed_places. rewrite filter_cons. unfold place_of at 1.
  destruct (decide (place_town p ≠ "")) as [Hcity|Hcity].
  - rewrite place_with_city_rendered by done. rewrite IH. cbn.
    by rewrite <- app_assoc.
  - apply dec_stable in Hcity. rewrite Hcity, place_without_city_skipped. apply IH.
Qed.

(** [rendering_stops_at_malformed] on a list whose second element is
    [null]. *)
Lemma rendering_stops_at_malformed_witness :
  py_getitem JNull "name" = Raise TypeError
  ∧ render_places ((place_of <$> houghton_places) ++ JNull :: [place "Late" "" "" "Hancock"])
      fresh_world
    = (Raise TypeError,
       World (CACHE_DICT fresh_world) (cache_file fresh_world)
             (trace fresh_world ++ printed_places houghton_places)).
Proof.
  split; [reflexivity|].
  apply (rendering_stops_at_malformed houghton_places JNull
           [place "Late" "" "" "Hancock"] TypeError fresh_world).
  reflexivity.
Defined.

(** ** The numbered list *)

Lemma list_sites_numbered (all_states : list NationalSite) (index : nat)
      (site_dict : gmap string NationalSite) (w : world) :
  list_sites all_states index site_dict w
  = (Ok (numbered all_states index site_dict),
     World (CACHE_DICT w) (cache_file w) (trace w ++ listing all_states index)).
Proof.
  revert index site_dict w.
  induction all_states as [|item rest IH]; intros index site_dict w; cbn.
  { rewrite app_nil_r. by destruct w. }
  unfold mbind, M_bind, bind, print, log. rewrite IH. cbn. by rewrite <- app_assoc.
Qed.

Lemma numbered_lookup (all_states : list NationalSite) (index : nat)
      (site_dict : gmap string NationalSite) (k : string) (site : NationalSite) :
  numbered all_states index site_dict !! k = Some site ↔
  (∃ i, k = pretty (index + i) ∧ all_states !! i = Some site)
  ∨ (site_dict !! k = Some site
     ∧ ∀ i, i < length all_states → k ≠ pretty (index + i)).
Proof.
  revert index site_dict.
  induction all_states as [|item rest IH]; intros index site_dict.
  { cbn. split; [intros H; right; split; [done|intros i Hi; lia]|].
    intros [(i & _ & Hi)|[H _]]; [by rewrite lookup_nil in Hi|done]. }
  cbn [numbered]. rewrite IH. split.
  - intros [(i & -> & Hi)|[Hk Hfresh]].
    + left. exists (S i). split; [f_equal; lia|done].
    + destruct (decide (k = pretty index)) as [->|Hne].
      * rewrite lookup_insert_eq in Hk. injection Hk as ->.
        left. exists 0. split; [f_equal; lia|done].
      * rewrite lookup_insert_ne in Hk by done. right. split; [done|].
        intros [|i] Hi; [by rewrite Nat.add_0_r|].
        replace (index + S i) with (index + 1 + i) by lia. apply Hfresh. cbn in Hi. lia.
  - intros [(i & -> & Hi)|[Hk Hfresh]].
    + destruct i as [|i].
      * cbn in Hi. injection Hi as ->. right. rewrite Nat.add_0_r, lookup_insert_eq.
        split; [done|]. intros i Hi Heq. apply (inj pretty) in Heq. lia.
      * left. exists i. split; [f_equal; lia|done].
    + right. split.
      * rewrite lookup_insert_ne; [done|]. intros <-.
        apply (Hfresh 0); [cbn; lia|by rewrite Nat.add_0_r].
      * intros i Hi. replace (index + 1 + i) with (index + S i) by lia.
        apply Hfresh. cbn. lia.
Qed.

(** X14. The numbered list.  Listing the sites of a state prints one
    line "[i] name (category): address zip" per site, numbered from 1 in
    the order of the list, and only prints; the dict kept for the site
    prompt maps the decimal numeral of [i] to the [i]-th site and has no
    other key. *)
Theorem sites_are_numbered_from_one (all_states : list NationalSite) (w : world) :
  ∃ site_dict w',
    list_sites all_states 1 ∅ w = (Ok site_dict, w')
    ∧ new_events w w' = listing all_states 1
    ∧ CACHE_DICT w' = CACHE_DICT w ∧ cache_file w' = cache_file w
    ∧ ∀ k site, site_dict !! k = Some site ↔
                ∃ i, k = pretty (S i) ∧ all_states !! i = Some site.
Proof.
  eexists _, _. split; [apply list_sites_numbered|]. cbn.
  split; [by apply new_events_app|]. repeat split; try done.
  - intros [H|[H _]]%numbered_lookup; [done|by rewrite lookup_empty in H].
  - intros H. apply numbered_lookup. by left.
Qed.

(** ** Turns at the site prompt *)

Lemma asks_only_of_prints {A} (url : string) (m : M A) : only_prints m → asks_only url m.
Proof.
  intros Hm w. destruct (Hm w) as (evs & Ht & Hg & Hw & Hc & Hf).
  exists evs. repeat split; try done. by left.
Qed.

Lemma asks_only_after_prints {A B} (url : string) (m : M A) (k : A → M B) :
  only_prints m → (∀ a, asks_only url (k a)) → asks_only url (m ≫= k).
Proof.
  intros Hm Hk w. destruct (Hm w) as (evs1 & Ht1 & Hg1 & Hw1 & Hc1 & Hf1).
  unfold mbind, M_bind, bind. destruct (m w) as [[a|e] w1]; cbn in *.
  - destruct (Hk a w1) as (evs2 & Ht2 & Hg2 & Hw2 & Hc2 & Hf2).
    exists (evs1 ++ evs2). unfold gets, writes in *. rewrite !omap_app.
    rewrite Ht2, Ht1, app_assoc, Hg1, Hw1, Hw2. repeat split; try congruence.
    by rewrite app_nil_l.
  - exists evs1. repeat split; try done. by left.
Qed.

Lemma asks_only_then_prints {A B} (url : string) (m : M A) (k : A → M B) :
  asks_only url m → (∀ a, only_prints (k a)) → asks_only url (m ≫= k).
Proof.
  intros Hm Hk w. destruct (Hm w) as (evs1 & Ht1 & Hg1 & Hw1 & Hc1 & Hf1).
  unfold mbind, M_bind, bind. destruct (m w) as [[a|e] w1]; cbn in *.
  - destruct (Hk a w1) as (evs2 & Ht2 & Hg2 & Hw2 & Hc2 & Hf2).
    exists (evs1 ++ evs2). unfold gets, writes in *. rewrite !omap_app.
    rewrite Ht2, Ht1, app_assoc, Hg2, Hw1, Hw2, app_nil_r. repeat split; congruence.
  - by exists evs1.
Qed.

Section SitePrompt.

Variable internet : list event → string → list (string * string) → option string.
Variable json_dumps : json → string.
Variable json_loads : string → option json.
Variable BeautifulSoup : string → node.
Variable key : string.

Local Abbreviation turn := (step internet json_dumps json_loads BeautifulSoup key).
Local Abbreviation nearby_places := (get_nearby_places internet json_loads key).
Local Abbreviation site_turn := (inner_iteration internet json_loads key).

Lemma nearby_places_asks_only (site : NationalSite) :
  asks_only endpoint_url (nearby_places site).
Proof.
  intros w. destruct (get_nearby_places_events internet json_loads key site w) as [o ->].
  exists [HttpGet endpoint_url (places_params key site)]. cbn. repeat split. by right.
Qed.

Lemma site_turn_asks_only (site_dict : gmap string NationalSite) (answer : string) :
  asks_only endpoint_url (site_turn site_dict answer).
Proof.
  unfold inner_iteration.
  apply asks_only_after_prints; [apply only_prints_print|]. intros _.
  apply asks_only_after_prints; [apply only_prints_input|]. intros number_input.
  cbv zeta. case_decide; [apply asks_only_of_prints, (only_prints_lift (Ok StateSelect))|].
  case_decide; [apply asks_only_of_prints, (only_prints_lift (Raise SystemExit))|].
  destruct (site_dict !! PyStr.lower number_input) as [site|].
  - apply asks_only_then_prints; [apply nearby_places_asks_only|]. intros places.
    repeat (apply only_prints_bind; [apply only_prints_print|]; intros _).
    apply only_prints_bind; [apply only_prints_lift|]. intros results.
    apply only_prints_bind; [apply only_prints_lift|]. intros items.
    apply only_prints_bind; [apply render_places_only_prints|]. intros _.
    apply (only_prints_lift (Ok (SiteList site_dict))).
  - apply asks_only_of_prints.
    apply only_prints_bind; [apply only_prints_print|]. intros _.
    apply (only_prints_lift (Ok (SiteList site_dict))).
Qed.

Lemma settle_world (r : outcome session * world) : (settle r).2 = r.2.
Proof. destruct r as [[s|[]] w]; reflexivity. Qed.

(** X15. A turn at the site prompt never touches the cache.  Whatever is
    answered at the site prompt, the turn leaves [CACHE_DICT] and the
    cache file as they were, writes nothing, and asks the network at most
    once, then for the places API: a detail search is never answered from
    the cache nor stored in it. *)
Theorem site_prompt_leaves_cache (site_dict : gmap string NationalSite)
        (answer : string) (w : world) :
  CACHE_DICT (turn (SiteList site_dict) answer w).2 = CACHE_DICT w
  ∧ cache_file (turn (SiteList site_dict) answer w).2 = cache_file w
  ∧ writes (new_events w (turn (SiteList site_dict) answer w).2) = []
  ∧ (gets (new_events w (turn (SiteList site_dict) answer w).2) = []
     ∨ gets (new_events w (turn (SiteList site_dict) answer w).2) = [endpoint_url]).
Proof.
  cbn [step]. rewrite settle_world.
  destruct (site_turn_asks_only site_dict answer w) as (evs & Ht & Hg & Hw & Hc & Hf).
  rewrite (new_events_app _ _ evs Ht). done.
Qed.

(** X16. An answer that is no choice.  An answer at the site prompt that
    reads neither "back" nor "exit" and, lower-cased, is no number of the
    list is reported as invalid: the session stays at the site prompt
    with the same list, after the prompt and one line of error, without
    any request. *)
Theorem invalid_choice_reported (site_dict : gmap string NationalSite)
        (answer : string) (w : world) :
  PyStr.lower answer ≠ "back" →
  PyStr.lower answer ≠ "exit" →
  site_dict !! PyStr.lower answer = None →
  turn (SiteList site_dict) answer w
  = (SiteList site_dict,
     World (CACHE_DICT w) (cache_file w)
           (trace w ++ [Printed ""; Prompted site_prompt answer;
                        Printed "[Error] Invalid input"])).
Proof.
  intros Hb He Hk. cbn [step]. unfold inner_iteration, input. unfold_monad. cbn.
  rewrite !decide_False by done. rewrite Hk. cbn. by rewrite <- !app_assoc.
Qed.

Lemma nearby_places_Ok (site : NationalSite) (text : string) (v : json) (w : world) :
  internet (trace w) endpoint_url (places_params key site) = Some text →
  json_loads text = Some v →
  nearby_places site w
  = (Ok v, World (CACHE_DICT w) (cache_file w)
                 (trace w ++ [HttpGet endpoint_url (places_params key site)])).
Proof.
  intros Hnet Hj. unfold get_nearby_places, requests_get. unfold_monad.
  unfold places_params in Hnet. rewrite Hnet. cbn. by rewrite Hj.
Qed.

(** A number of the list: the turn is the detail search for that site. *)
Lemma site_turn_choice (site_dict : gmap string NationalSite) (answer : string)
      (site : NationalSite) (w : world) :
  PyStr.lower answer ≠ "back" →
  PyStr.lower answer ≠ "exit" →
  site_dict !! PyStr.lower answer = Some site →
  turn (SiteList site_dict) answer w
  = settle ((nearby ← nearby_places site;
             let count := String.length (name site) in
             print (PyStr.repeat_char "-" (12 + count)) ;;
             print ("Places near " +:+ name site) ;;
             print (PyStr.repeat_char "-" (12 + count)) ;;
             results ← lift (py_getitem nearby "searchResults");
             places ← lift (py_iter results);
             render_places places ;;
             ret (SiteList site_dict))
              (World (CACHE_DICT w) (cache_file w)
                     (trace w ++ [Printed ""; Prompted site_prompt answer]))).
Proof.
  intros Hb He Hk. cbn [step]. unfold inner_iteration, input.
  unfold mbind, M_bind, bind, print, log, ret, lift.
  cbn [fst snd CACHE_DICT cache_file trace].
  rewrite !decide_False by done. rewrite Hk. by rewrite <- app_assoc.
Qed.

(** X17. A detail search.  A number of the list, answered at the site
    prompt, when the places API answers with a JSON object whose
    "searchResults" is a list of places with string fields: the session
    requests the API once with the postal code of the chosen site as
    origin, prints the heading "Places near <name>" between two rules of
    12 + len(name) dashes, prints the places that have a city, and is
    back at the site prompt with the same list. *)
Theorem detail_search (site_dict : gmap string NationalSite) (answer text : string)
        (site : NationalSite) (response : gmap string json) (l : list PlaceFact)
        (w : world) :
  PyStr.lower answer ≠ "back" →
  PyStr.lower answer ≠ "exit" →
  site_dict !! PyStr.lower answer = Some site →
  internet (trace w ++ [Printed ""; Prompted site_prompt answer])
           endpoint_url (places_params key site) = Some text →
  json_loads text = Some (JDict response) →
  response !! "searchResults" = Some (JList (place_of <$> l)) →
  turn (SiteList site_dict) answer w
  = (SiteList site_dict,
     World (CACHE_DICT w) (cache_file w)
           (trace w
              ++ [Printed ""; Prompted site_prompt answer;
                  HttpGet endpoint_url (places_params key site)]
              ++ heading (12 + String.length (name site)) ("Places near " +:+ name site)
              ++ printed_places l)).
Proof.
  intros Hb He Hk Hnet Hj Hr. rewrite (site_turn_choice _ _ site) by done.
  unfold mbind at 1. unfold M_bind, bind.
  rewrite (nearby_places_Ok site text (JDict response)) by done.
  unfold mbind, M_bind, bind, print, log, lift, ret. cbn [CACHE_DICT cache_file trace].
  cbn [py_getitem]. rewrite Hr. cbn [py_iter].
  rewrite render_places_of_facts. cbn. unfold heading. by rewrite <- !app_assoc.
Qed.

(** X18. A detail search that fails ends the session.  After a number of
    the list is answered: when the places API cannot be reached the
    session ends with [ConnectionError]; when its answer is no JSON, with
    [JSONDecodeError]; when its answer is a JSON object without
    "searchResults", with [KeyError] below the heading.  None of these is
    caught. *)
Theorem detail_search_failures (site_dict : gmap string NationalSite) (answer : string)
        (site : NationalSite) (w : world) :
  PyStr.lower answer ≠ "back" →
  PyStr.lower answer ≠ "exit" →
  site_dict !! PyStr.lower answer = Some site →
  (internet (trace w ++ [Printed ""; Prompted site_prompt answer])
            endpoint_url (places_params key site) = None →
   (turn (SiteList site_dict) answer w).1 = Crashed ConnectionError)
  ∧ (∀ text,
       internet (trace w ++ [Printed ""; Prompted site_prompt answer])
                endpoint_url (places_params key site) = Some text →
       json_loads text = None →
       (turn (SiteList site_dict) answer w).1 = Crashed JSONDecodeError)
  ∧ (∀ text response,
       internet (trace w ++ [Printed ""; Prompted site_prompt answer])
                endpoint_url (places_params key site) = Some text →
       json_loads text = Some (JDict response) →
       response !! "searchResults" = None →
       turn (SiteList site_dict) answer w
       = (Crashed KeyError,
          World (CACHE_DICT w) (cache_file w)
                (trace w
                   ++ [Printed ""; Prompted site_prompt answer;
                       HttpGet endpoint_url (places_params key site)]
                   ++ heading (12 + String.length (name site))
                              ("Places near " +:+ name site)))).
Proof.
  intros Hb He Hk. rewrite (site_turn_choice _ _ site) by done. repeat split.
  - intros Hnet. unfold mbind at 1. unfold M_bind, bind.
    unfold get_nearby_places, requests_get. unfold_monad. cbn.
    unfold places_params in Hnet. by rewrite Hnet.
  - intros text Hnet Hj. unfold mbind at 1. unfold M_bind, bind.
    unfold get_nearby_places, requests_get. unfold_monad. cbn.
    unfold places_params in Hnet. rewrite Hnet. cbn. by rewrite Hj.
  - intros text response Hnet Hj Hr. unfold mbind at 1. unfold M_bind, bind.
    rewrite (nearby_places_Ok site text (JDict response)) by done.
    unfold mbind, M_bind, bind, print, log, lift. cbn [CACHE_DICT cache_file trace].
    cbn [py_getitem]. rewrite Hr. cbn. unfold heading. by rewrite <- !app_assoc.
Qed.

End SitePrompt.

(** [invalid_choice_reported] on an empty list. *)
Lemma invalid_choice_reported_witness :
  PyStr.lower "7" ≠ "back"
  ∧ PyStr.lower "7" ≠ "exit"
  ∧ (∅ : gmap string NationalSite) !! PyStr.lower "7" = None
  ∧ step stub_web RefJson.dumps RefJson.loads blank_parser "" (SiteList ∅) "7" fresh_world
    = (SiteList ∅,
       World (CACHE_DICT fresh_world) (cache_file fresh_world)
             (trace fresh_world ++ [Printed ""; Prompted site_prompt "7";
                                    Printed "[Error] Invalid input"])).
Proof.
  assert (PyStr.lower "7" ≠ "back") as Hb by discriminate.
  assert (PyStr.lower "7" ≠ "exit") as He by discriminate.
  split; [exact Hb|]. split; [exact He|]. split; [reflexivity|].
  exact (invalid_choice_reported stub_web RefJson.dumps RefJson.loads blank_parser ""
           ∅ "7" fresh_world Hb He eq_refl).
Defined.

(** [detail_search] for Isle Royale, the places API answering with two
    places, one without city. *)
Lemma detail_search_witness :
  PyStr.lower "1" ≠ "back"
  ∧ PyStr.lower "1" ≠ "exit"
  ∧ michigan_sites !! PyStr.lower "1" = Some isle_royale_site
  ∧ sample_web (trace fresh_world ++ [Printed ""; Prompted site_prompt "1"])
               endpoint_url (places_params "KEY" isle_royale_site) = Some "PLACES"
  ∧ sample_loads "PLACES"
    = Some (JDict {[ "searchResults" := JList (place_of <$> houghton_places) ]})
  ∧ ({[ "searchResults" := JList (place_of <$> houghton_places) ]} : gmap string json)
      !! "searchResults" = Some (JList (place_of <$> houghton_places))
  ∧ step sample_web RefJson.dumps sample_loads sample_parser "KEY"
         (SiteList michigan_sites) "1" fresh_world
    = (SiteList michigan_sites,
       World (CACHE_DICT fresh_world) (cache_file fresh_world)
             (trace fresh_world
                ++ [Printed ""; Prompted site_prompt "1";
                    HttpGet endpoint_url (places_params "KEY" isle_royale_site)]
                ++ heading (12 + String.length (name isle_royale_site))
                           ("Places near " +:+ name isle_royale_site)
                ++ printed_places houghton_places)).
Proof.
  assert (PyStr.lower "1" ≠ "back") as Hb by discriminate.
  assert (PyStr.lower "1" ≠ "exit") as He by discriminate.
  split; [exact Hb|]. split; [exact He|]. do 4 (split; [reflexivity|]).
  exact (detail_search sample_web RefJson.dumps sample_loads sample_parser "KEY"
           michigan_sites "1" "PLACES" isle_royale_site
           {[ "searchResults" := JList (place_of <$> houghton_places) ]}
           houghton_places fresh_world Hb He eq_refl eq_refl eq_refl eq_refl).
Defined.

(** [detail_search_failures]: the API out of reach, answering with text
    that is no JSON, and answering with an empty object. *)
Lemma detail_search_failures_witness :
  PyStr.lower "1" ≠ "back"
  ∧ PyStr.lower "1" ≠ "exit"
  ∧ michigan_sites !! PyStr.lower "1" = Some isle_royale_site
  ∧ (stub_web (trace fresh_world ++ [Printed ""; Prompted site_prompt "1"])
              endpoint_url (places_params "KEY" isle_royale_site) = None
     ∧ (step stub_web RefJson.dumps RefJson.loads blank_parser "KEY"
             (SiteList michigan_sites) "1" fresh_world).1 = Crashed ConnectionError)
  ∧ (sample_web (trace fresh_world ++ [Printed ""; Prompted site_prompt "1"])
                endpoint_url (places_params "KEY" isle_royale_site) = Some "PLACES"
     ∧ RefJson.loads "PLACES" = None
     ∧ (step sample_web RefJson.dumps RefJson.loads sample_parser "KEY"
             (SiteList michigan_sites) "1" fresh_world).1 = Crashed JSONDecodeError)
  ∧ (error_web (trace fresh_world ++ [Printed ""; Prompted site_prompt "1"])
               endpoint_url (places_params "KEY" isle_royale_site) = Some "{}"
     ∧ RefJson.loads "{}" = Some (JDict ∅)
     ∧ (∅ : gmap string json) !! "searchResults" = None
     ∧ step error_web RefJson.dumps RefJson.loads blank_parser "KEY"
            (SiteList michigan_sites) "1" fresh_world
       = (Crashed KeyError,
          World (CACHE_DICT fresh_world) (cache_file fresh_world)
                (trace fresh_world
                   ++ [Printed ""; Prompted site_prompt "1";
                       HttpGet endpoint_url (places_params "KEY" isle_royale_site)]
                   ++ heading (12 + String.length (name isle_royale_site))
                              ("Places near " +:+ name isle_royale_site)))).
Proof.
  assert (PyStr.lower "1" ≠ "back") as Hb by discriminate.
  assert (PyStr.lower "1" ≠ "exit") as He by discriminate.
  split; [exact Hb|]. split; [exact He|]. split; [reflexivity|].
  split; [|split].
  - split; [reflexivity|].
    destruct (detail_search_failures stub_web RefJson.dumps RefJson.loads blank_parser "KEY"
                michigan_sites "1" isle_royale_site fresh_world Hb He eq_refl)
      as (Hdown & _). exact (Hdown eq_refl).
  - split; [reflexivity|]. split; [vm_compute; reflexivity|].
    destruct (detail_search_failures sample_web RefJson.dumps RefJson.loads sample_parser
                "KEY" michigan_sites "1" isle_royale_site fresh_world Hb He eq_refl)
      as (_ & Hbad & _).
    apply (Hbad "PLACES"); [reflexivity|vm_compute; reflexivity].
  - split; [reflexivity|]. split; [reflexivity|]. split; [reflexivity|].
    destruct (detail_search_failures error_web RefJson.dumps RefJson.loads blank_parser
                "KEY" michigan_sites "1" isle_royale_site fresh_world Hb He eq_refl)
      as (_ & _ & Hkey).
    apply (Hkey "{}" ∅); reflexivity.
Defined.

(** ** Turns at the state prompt *)

Lemma find_satisfies (p : node → bool) (n x : node) :
  Soup.find p n = Some x → p x = true.
Proof.
  unfold Soup.find. intros H. apply head_Some_elem_of in H.
  by apply list_elem_of_filter in H as [H _].
Qed.

Lemma item_link_raises (states : node) (e : exn) :
  item_link states = Raise e → e = AttributeError ∨ e = KeyError.
Proof.
  unfold item_link.
  destruct (Soup.find (Soup.named "a") states) as [x|] eqn:E; cbn; [|intros [= <-]; by left].
  apply find_satisfies in E. destruct x as [s|t cs attrs children]; [done|]. cbn.
  destruct (attrs !! "href"); cbn; [discriminate|]. intros [= <-]. by right.
Qed.

Lemma links_of_raises (state_list : list node) (e : exn) :
  links_of state_list = Raise e → e = AttributeError ∨ e = KeyError.
Proof.
  induction state_list as [|states rest IH]; cbn; [discriminate|].
  destruct (item_link states) as [link|e'] eqn:E; cbn.
  - destruct (links_of rest) as [links|e'']; cbn; [discriminate|].
    intros [= <-]. by apply IH.
  - intros [= <-]. by eapply item_link_raises.
Qed.

Lemma state_dict_of_soup_raises (soup : node) (e : exn) :
  state_dict_of_soup soup = Raise e → e = AttributeError ∨ e = KeyError.
Proof.
  rewrite StateIndexFacts.state_dict_of_soup_fold. unfold menu_links.
  destruct (Soup.on_tag _ _) as [state_list|e'] eqn:E; cbn.
  - destruct (links_of state_list) as [links|e''] eqn:El; cbn; [discriminate|].
    intros [= <-]. by eapply links_of_raises.
  - intros [= <-]. unfold Soup.on_tag in E. destruct (Soup.find _ soup); [discriminate|].
    injection E as <-. by left.
Qed.

Section StatePrompt.

Variable internet : list event → string → list (string * string) → option string.
Variable json_dumps : json → string.
Variable json_loads : string → option json.
Variable BeautifulSoup : string → node.
Variable key : string.

Local Abbreviation turn := (step internet json_dumps json_loads BeautifulSoup key).
Local Abbreviation session_run := (run internet json_dumps json_loads BeautifulSoup key).
Local Abbreviation state_index := (build_state_url_dict internet BeautifulSoup).
Local Abbreviation sites_for_state := (get_sites_for_state internet json_dumps BeautifulSoup).

(** An answer other than "exit": the turn builds the index and looks
    the state up. *)
Lemma state_turn_lookup (answer : string) (w : world) :
  PyStr.lower answer ≠ "exit" →
  turn StateSelect answer w
  = settle ((states_url ← state_index;
             match states_url !! PyStr.lower answer with
             | Some url =>
                 all_states ← sites_for_state url;
                 let count := String.length (PyStr.lower answer) in
                 print (PyStr.repeat_char "-" (26 + count)) ;;
                 print ("List of national sites in " +:+ PyStr.lower answer) ;;
                 print (PyStr.repeat_char "-" (26 + count)) ;;
                 site_dict ← list_sites all_states 1 ∅;
                 ret (SiteList site_dict)
             | None =>
                 print "[Error] Enter proper state name" ;;
                 ret StateSelect
             end)
              (World (CACHE_DICT w) (cache_file w)
                     (trace w ++ [Prompted state_prompt answer]))).
Proof.
  intros He. cbn [step]. unfold outer_iteration, input.
  unfold mbind at 1. unfold M_bind, bind.
  unfold mbind at 1. unfold M_bind, bind, log, ret. cbn [fst snd].
  by rewrite decide_False by done.
Qed.

Lemma state_index_answered (text : string) (w : world) :
  internet (trace w) state_url [] = Some text →
  state_index w
  = (state_dict_of_soup (BeautifulSoup text),
     World (CACHE_DICT w) (cache_file w) (trace w ++ [HttpGet state_url []])).
Proof.
  intros Hnet. unfold build_state_url_dict, requests_get. unfold_monad.
  by rewrite Hnet.
Qed.

(** X19. A name that is no state.  An answer at the state prompt that
    does not read "exit" and, lower-cased, is no key of the index built
    from the home page is reported: the session stays at the state
    prompt after one request, that of the home page, and one line of
    error; the cache and its file are as before. *)
Theorem unknown_state_reported (answer text : string) (state_dict : gmap string string)
        (w : world) :
  PyStr.lower answer ≠ "exit" →
  internet (trace w ++ [Prompted state_prompt answer]) state_url [] = Some text →
  state_dict_of_soup (BeautifulSoup text) = Ok state_dict →
  state_dict !! PyStr.lower answer = None →
  turn StateSelect answer w
  = (StateSelect,
     World (CACHE_DICT w) (cache_file w)
           (trace w ++ [Prompted state_prompt answer; HttpGet state_url [];
                        Printed "[Error] Enter proper state name"])).
Proof.
  intros He Hnet Hd Hk. rewrite state_turn_lookup by done.
  unfold mbind at 1. unfold M_bind, bind.
  rewrite (state_index_answered text) by done. rewrite Hd, Hk.
  unfold_monad. cbn. by rewrite <- !app_assoc.
Qed.

(** X20. The state prompt does not survive a failure.  After an answer
    that does not read "exit": when the home page cannot be reached the
    session ends with [ConnectionError]; when the home page has no state
    menu, or an item of it has no link or no [href], the session ends
    with [AttributeError] or [KeyError]; and when the state is found but
    [get_sites_for_state] raises, the session ends with that exception,
    without any list. *)
Theorem state_prompt_failures (answer : string) (w : world) :
  PyStr.lower answer ≠ "exit" →
  (internet (trace w ++ [Prompted state_prompt answer]) state_url [] = None →
   turn StateSelect answer w
   = (Crashed ConnectionError,
      World (CACHE_DICT w) (cache_file w)
            (trace w ++ [Prompted state_prompt answer; HttpGet state_url []])))
  ∧ (∀ text e,
       internet (trace w ++ [Prompted state_prompt answer]) state_url [] = Some text →
       state_dict_of_soup (BeautifulSoup text) = Raise e →
       (e = AttributeError ∨ e = KeyError)
       ∧ turn StateSelect answer w
         = (Crashed e,
            World (CACHE_DICT w) (cache_file w)
                  (trace w ++ [Prompted state_prompt answer; HttpGet state_url []])))
  ∧ (∀ text state_dict url e w',
       internet (trace w ++ [Prompted state_prompt answer]) state_url [] = Some text →
       state_dict_of_soup (BeautifulSoup text) = Ok state_dict →
       state_dict !! PyStr.lower answer = Some url →
       sites_for_state url
         (World (CACHE_DICT w) (cache_file w)
                (trace w ++ [Prompted state_prompt answer; HttpGet state_url []]))
         = (Raise e, w') →
       e ≠ SystemExit →
       turn StateSelect answer w = (Crashed e, w')).
Proof.
  intros He. rewrite state_turn_lookup by done. split; [|split].
  - intros Hnet. unfold mbind at 1. unfold M_bind, bind.
    unfold build_state_url_dict, requests_get. unfold_monad. cbn. rewrite Hnet. cbn.
    by rewrite <- app_assoc.
  - intros text e Hnet Hraise. split; [by eapply state_dict_of_soup_raises|].
    unfold mbind at 1. unfold M_bind, bind.
    rewrite (state_index_answered text) by done. rewrite Hraise. cbn.
    rewrite <- app_assoc. cbn.
    destruct (state_dict_of_soup_raises _ _ Hraise) as [->| ->]; reflexivity.
  - intros text state_dict url e w' Hnet Hd Hk Hsites Hne.
    unfold mbind at 1. unfold M_bind, bind.
    rewrite (state_index_answered text) by done. rewrite Hd, Hk.
    unfold mbind at 1. unfold M_bind, bind. cbn [trace CACHE_DICT cache_file].
    rewrite <- app_assoc. cbn [app]. rewrite Hsites. by destruct e.
Qed.

(** X21. A state is listed.  An answer at the state prompt that does not
    read "exit" and, lower-cased, is a key of the index, when
    [get_sites_for_state] returns the sites of the URL found there: the
    session prints "List of national sites in <state>" with the state in
    lower case, between two rules of 26 + len(state) dashes, prints the
    numbered sites, and stands at the site prompt with those sites
    numbered from 1. *)
Theorem state_listed (answer text url : string) (state_dict : gmap string string)
        (all_states : list NationalSite) (w w' : world) :
  PyStr.lower answer ≠ "exit" →
  internet (trace w ++ [Prompted state_prompt answer]) state_url [] = Some text →
  state_dict_of_soup (BeautifulSoup text) = Ok state_dict →
  state_dict !! PyStr.lower answer = Some url →
  sites_for_state url
    (World (CACHE_DICT w) (cache_file w)
           (trace w ++ [Prompted state_prompt answer; HttpGet state_url []]))
    = (Ok all_states, w') →
  turn StateSelect answer w
  = (SiteList (numbered all_states 1 ∅),
     World (CACHE_DICT w') (cache_file w')
           (trace w'
              ++ heading (26 + String.length (PyStr.lower answer))
                         ("List of national sites in " +:+ PyStr.lower answer)
              ++ listing all_states 1)).
Proof.
  intros He Hnet Hd Hk Hsites. rewrite state_turn_lookup by done.
  unfold mbind at 1. unfold M_bind, bind.
  rewrite (state_index_answered text) by done. rewrite Hd, Hk.
  unfold mbind at 1. unfold M_bind, bind. cbn [trace CACHE_DICT cache_file].
  rewrite <- app_assoc. cbn [app]. rewrite Hsites.
  unfold mbind, M_bind, bind, print, log, ret. cbn [CACHE_DICT cache_file trace].
  rewrite list_sites_numbered. cbn. unfold heading. by rewrite <- !app_assoc.
Qed.

End StatePrompt.

(** [unknown_state_reported] on "Ohio", the index listing Michigan only. *)
Lemma unknown_state_reported_witness :
  PyStr.lower "Ohio" ≠ "exit"
  ∧ sample_web (trace fresh_world ++ [Prompted state_prompt "Ohio"]) state_url []
    = Some "INDEX"
  ∧ state_dict_of_soup (sample_parser "INDEX") = Ok {[ "michigan" := michigan_url ]}
  ∧ ({[ "michigan" := michigan_url ]} : gmap string string) !! PyStr.lower "Ohio" = None
  ∧ step sample_web RefJson.dumps sample_loads sample_parser "KEY" StateSelect "Ohio"
         fresh_world
    = (StateSelect,
       World (CACHE_DICT fresh_world) (cache_file fresh_world)
             (trace fresh_world ++ [Prompted state_prompt "Ohio"; HttpGet state_url [];
                                    Printed "[Error] Enter proper state name"])).
Proof.
  assert (PyStr.lower "Ohio" ≠ "exit") as He by discriminate.
  assert (state_dict_of_soup (sample_parser "INDEX") = Ok {[ "michigan" := michigan_url ]})
    as Hd by (vm_compute; reflexivity).
  split; [exact He|]. split; [reflexivity|]. split; [exact Hd|].
  split; [vm_compute; reflexivity|].
  apply (unknown_state_reported sample_web RefJson.dumps sample_loads sample_parser "KEY"
           "Ohio" "INDEX" {[ "michigan" := michigan_url ]} fresh_world He eq_refl Hd).
  vm_compute. reflexivity.
Defined.

(** [state_prompt_failures]: the home page out of reach, a home page
    without state menu, and a listing page out of reach. *)
Lemma state_prompt_failures_witness :
  PyStr.lower "Michigan" ≠ "exit"
  ∧ (stub_web (trace fresh_world ++ [Prompted state_prompt "Michigan"]) state_url [] = None
     ∧ step stub_web RefJson.dumps RefJson.loads blank_parser "KEY" StateSelect "Michigan"
            fresh_world
       = (Crashed ConnectionError,
          World (CACHE_DICT fresh_world) (cache_file fresh_world)
                (trace fresh_world
                   ++ [Prompted state_prompt "Michigan"; HttpGet state_url []])))
  ∧ (sample_web (trace fresh_world ++ [Prompted state_prompt "Michigan"]) state_url []
       = Some "INDEX"
     ∧ state_dict_of_soup (blank_parser "INDEX") = Raise AttributeError
     ∧ step sample_web RefJson.dumps RefJson.loads blank_parser "KEY" StateSelect "Michigan"
            fresh_world
       = (Crashed AttributeError,
          World (CACHE_DICT fresh_world) (cache_file fresh_world)
                (trace fresh_world
                   ++ [Prompted state_prompt "Michigan"; HttpGet state_url []])))
  ∧ (error_web (trace fresh_world ++ [Prompted state_prompt "Michigan"]) state_url []
       = Some "{}"
     ∧ state_dict_of_soup ((λ _, michigan_menu) "{}") = Ok {[ "michigan" := michigan_url ]}
     ∧ ({[ "michigan" := michigan_url ]} : gmap string string) !! PyStr.lower "Michigan"
       = Some michigan_url
     ∧ ∃ w',
         get_sites_for_state error_web RefJson.dumps (λ _, michigan_menu) michigan_url
           (World (CACHE_DICT fresh_world) (cache_file fresh_world)
                  (trace fresh_world
                     ++ [Prompted state_prompt "Michigan"; HttpGet state_url []]))
           = (Raise AttributeError, w')
         ∧ AttributeError ≠ SystemExit
         ∧ step error_web RefJson.dumps RefJson.loads (λ _, michigan_menu) "KEY"
                StateSelect "Michigan" fresh_world
           = (Crashed AttributeError, w')).
Proof.
  assert (PyStr.lower "Michigan" ≠ "exit") as He by discriminate.
  split; [exact He|]. split; [|split].
  - split; [reflexivity|].
    destruct (state_prompt_failures stub_web RefJson.dumps RefJson.loads blank_parser "KEY"
                "Michigan" fresh_world He) as (Hdown & _).
    exact (Hdown eq_refl).
  - split; [reflexivity|]. split; [vm_compute; reflexivity|].
    destruct (state_prompt_failures sample_web RefJson.dumps RefJson.loads blank_parser "KEY"
                "Michigan" fresh_world He) as (_ & Hparse & _).
    apply (Hparse "INDEX" AttributeError); [reflexivity|vm_compute; reflexivity].
  - split; [reflexivity|]. split; [vm_compute; reflexivity|].
    split; [vm_compute; reflexivity|].
    destruct (state_prompt_failures error_web RefJson.dumps RefJson.loads
                (λ _, michigan_menu) "KEY" "Michigan" fresh_world He) as (_ & _ & Hsites).
    eexists. split; [vm_compute; reflexivity|]. split; [discriminate|].
    apply (Hsites "{}" {[ "michigan" := michigan_url ]} michigan_url AttributeError);
      [reflexivity|vm_compute; reflexivity|vm_compute; reflexivity
      |vm_compute; reflexivity|discriminate].
Defined.

(** [state_listed] on "Michigan". *)
Lemma state_listed_witness :
  PyStr.lower "Michigan" ≠ "exit"
  ∧ sample_web (trace fresh_world ++ [Prompted state_prompt "Michigan"]) state_url []
    = Some "INDEX"
  ∧ state_dict_of_soup (sample_parser "INDEX") = Ok {[ "michigan" := michigan_url ]}
  ∧ ({[ "michigan" := michigan_url ]} : gmap string string) !! PyStr.lower "Michigan"
    = Some michigan_url
  ∧ ∃ w',
      get_sites_for_state sample_web RefJson.dumps sample_parser michigan_url
        (World (CACHE_DICT fresh_world) (cache_file fresh_world)
               (trace fresh_world ++ [Prompted state_prompt "Michigan"; HttpGet state_url []]))
        = (Ok [isle_royale_site], w')
      ∧ step sample_web RefJson.dumps sample_loads sample_parser "KEY" StateSelect
             "Michigan" fresh_world
        = (SiteList (numbered [isle_royale_site] 1 ∅),
           World (CACHE_DICT w') (cache_file w')
                 (trace w'
                    ++ heading (26 + String.length (PyStr.lower "Michigan"))
                               ("List of national sites in " +:+ PyStr.lower "Michigan")
                    ++ listing [isle_royale_site] 1)).
Proof.
  assert (PyStr.lower "Michigan" ≠ "exit") as He by discriminate.
  assert (state_dict_of_soup (sample_parser "INDEX") = Ok {[ "michigan" := michigan_url ]})
    as Hd by (vm_compute; reflexivity).
  split; [exact He|]. split; [reflexivity|]. split; [exact Hd|].
  split; [vm_compute; reflexivity|].
  eexists. split; [vm_compute; reflexivity|].
  apply (state_listed sample_web RefJson.dumps sample_loads sample_parser "KEY"
           "Michigan" "INDEX" michigan_url {[ "michigan" := michigan_url ]}
           [isle_royale_site] fresh_world _ He eq_refl Hd);
    vm_compute; reflexivity.
Defined.

(** ** The whole session *)

Lemma asks_only_keeps_entries {A} (url : string) (m : M A) :
  asks_only url m → keeps_entries m.
Proof.
  intros Hm w d Hc. destruct (Hm w) as (_ & _ & _ & _ & Hc' & _).
  exists d. by rewrite Hc'.
Qed.

Section Session.

Variable internet : list event → string → list (string * string) → option string.
Variable json_dumps : json → string.
Variable json_loads : string → option json.
Variable BeautifulSoup : string → node.
Variable key : string.

Local Abbreviation turn := (step internet json_dumps json_loads BeautifulSoup key).
Local Abbreviation session_run := (run internet json_dumps json_loads BeautifulSoup key).
Local Abbreviation program := (main internet json_dumps json_loads BeautifulSoup key).

Lemma state_index_keeps_entries :
  keeps_entries (build_state_url_dict internet BeautifulSoup).
Proof.
  unfold build_state_url_dict.
  apply keeps_entries_bind; [apply requests_get_keeps_entries|]. intros response.
  apply keeps_entries_lift.
Qed.

Lemma sites_for_state_keeps_entries (url : string) :
  keeps_entries (get_sites_for_state internet json_dumps BeautifulSoup url).
Proof.
  unfold get_sites_for_state.
  apply keeps_entries_bind; [apply requests_get_keeps_entries|]. intros response.
  apply keeps_entries_bind; [apply keeps_entries_lift|]. intros park_find.
  apply sites_loop_keeps_entries.
Qed.

Lemma state_turn_keeps_entries (answer : string) :
  keeps_entries (outer_iteration internet json_dumps BeautifulSoup answer).
Proof.
  unfold outer_iteration.
  apply keeps_entries_bind; [apply only_prints_keeps_entries, only_prints_input|].
  intros state_input. case_decide; [apply (keeps_entries_lift (Raise SystemExit))|].
  apply keeps_entries_bind; [apply state_index_keeps_entries|]. intros states_url.
  destruct (states_url !! PyStr.lower state_input) as [url|].
  - apply keeps_entries_bind; [apply sites_for_state_keeps_entries|]. intros all_states.
    repeat (apply keeps_entries_bind;
            [apply only_prints_keeps_entries, only_prints_print|]; intros _).
    apply keeps_entries_bind;
      [apply only_prints_keeps_entries, list_sites_only_prints|]. intros site_dict.
    apply (keeps_entries_lift (Ok (SiteList site_dict))).
  - apply keeps_entries_bind; [apply only_prints_keeps_entries, only_prints_print|].
    intros _. apply (keeps_entries_lift (Ok StateSelect)).
Qed.

Lemma turn_keeps_entries (s : session) (line : string) (w : world)
      (d : gmap string json) :
  CACHE_DICT w = JDict d →
  ∃ d', CACHE_DICT (turn s line w).2 = JDict d' ∧ d ⊆ d'.
Proof.
  intros Hc. destruct s as [|site_dict| |e]; cbn [step]; rewrite ?settle_world.
  - by apply state_turn_keeps_entries.
  - by apply (asks_only_keeps_entries endpoint_url _
                (site_turn_asks_only internet json_loads key site_dict line)).
  - by exists d.
  - by exists d.
Qed.

(** X22. A session only adds to the cache.  Whatever is typed, and
    however the session ends, every entry that the cache held when the
    session began is still there, with the same body: nothing is
    evicted, replaced or refreshed. *)
Theorem session_keeps_cache_entries (s : session) (lines : list string) (w : world)
        (d : gmap string json) :
  CACHE_DICT w = JDict d →
  ∃ d', CACHE_DICT (session_run s lines w).2 = JDict d' ∧ d ⊆ d'.
Proof.
  revert s w d. induction lines as [|line lines IH]; intros s w d Hc; cbn.
  - by exists d.
  - destruct (turn s line w) as [s1 w1] eqn:E.
    destruct (turn_keeps_entries s line w d Hc) as (d1 & Hc1 & Hsub1).
    rewrite E in Hc1. cbn in Hc1.
    destruct (IH s1 w1 d1 Hc1) as (d2 & Hc2 & Hsub2).
    exists d2. split; [done|]. by transitivity d1.
Qed.

(** The start of the program: the cache is loaded, whatever the file. *)
Lemma startup_returns (w : world) :
  ∃ v evs,
    (cache ← load_cache json_loads; set_CACHE_DICT cache) w
    = (Ok tt, World v (cache_file w) (trace w ++ evs))
    ∧ gets evs = [] ∧ writes evs = [].
Proof.
  destruct w as [c f t]. unfold load_cache, open_read. unfold_monad. cbn.
  destruct f as [|[] wr contents]; cbn.
  - exists (JDict ∅), []. by rewrite app_nil_r.
  - destruct (json_loads contents) as [v|]; cbn.
    + by exists v, [FileRead].
    + by exists (JDict ∅), [FileRead].
  - exists (JDict ∅), []. by rewrite app_nil_r.
Qed.


End Session.

(** [session_keeps_cache_entries] on a session that lists Michigan, asks
    for the places near its one site, goes back and leaves, the cache
    holding the stub page beforehand. *)
Lemma session_keeps_cache_entries_witness :
  CACHE_DICT world_after_fetch = JDict {[ "https://x/a" := JStr "BODY" ]}
  ∧ ∃ d',
      CACHE_DICT (run sample_web RefJson.dumps sample_loads sample_parser "KEY" StateSelect
                      ["Michigan"; "1"; "back"; "exit"] world_after_fetch).2 = JDict d'
      ∧ ({[ "https://x/a" := JStr "BODY" ]} : gmap string json) ⊆ d'.
Proof.
  split; [reflexivity|].
  exact (session_keeps_cache_entries sample_web RefJson.dumps sample_loads sample_parser
           "KEY" StateSelect ["Michigan"; "1"; "back"; "exit"] world_after_fetch
           {[ "https://x/a" := JStr "BODY" ]} eq_refl).
Defined.

